(** * Session lifecycle of the tic-tac-toe bot

    A shallow embedding of [GameStateManager] (requestDuel, createGame,
    endGame, createAI) and of the invitation path of [GameCommand]
    (processInvitation, handleInvitation).

    JavaScript objects are records carrying an object identity ([*_oid]);
    [===] on objects is equality of these records.  The manager's mutable
    state, the clock and a trace of the observable steps are threaded through
    a state-and-exception monad [M]: a rejected promise and a thrown
    exception are both the outcome [Rejected].  Every [await] leaves a mark in
    the trace, so that the position of the suspension points of an [async]
    function can be stated. *)

From stdpp Require Import base option list gmap strings.
From Stdlib Require Import ZArith Lia.
From Stdlib Require SpecFloat.

Set Default Proof Using "Type".

(** ** Discord objects *)

Record User := { user_id : string; user_bot : bool }.

Record GuildMember := { member_oid : nat; member_user : User }.

(** [member.id] is a getter for [member.user.id]. *)
Definition member_id (m : GuildMember) : string := user_id (member_user m).

Record TextChannel := { channel_id : string }.

Inductive Permission := ViewChannel | SendMessages | AddReactions.

Record MessagingTunnel := {
  tunnel_oid : nat;
  author : GuildMember;
  channel : TextChannel }.

Record Message := { message_id : string }.

(** ** JavaScript numbers

    A [number] is an IEEE 754 binary64 value; the arithmetic rounds to
    nearest, ties to even, and comparisons with NaN are false. *)

Definition Number : Type := SpecFloat.spec_float.

#[global] Instance Number_eq_dec : EqDecision Number.
Proof. unfold Number. solve_decision. Defined.

(** The number nearest to an integer; integers up to 2^53 in magnitude are
    represented exactly. *)
Definition number_of_Z (z : Z) : Number :=
  SpecFloat.binary_normalize 53 1024 z 0 false.

(** The literal [0]. *)
Definition number_zero : Number := SpecFloat.S754_zero false.

(** [x + y], [x * y] and [x < y] *)
Definition number_add (x y : Number) : Number := SpecFloat.SFadd 53 1024 x y.

Definition number_mul (x y : Number) : Number := SpecFloat.SFmul 53 1024 x y.

Definition number_lt (x y : Number) : bool := SpecFloat.SFltb x y.

(** ** Game entities *)

Record AI := { ai_oid : nat; ai_difficulty : Z }.

(** [Entity] is implemented by guild members and by the AI. *)
Inductive Entity :=
  | EMember (m : GuildMember)
  | EAI (a : AI).

Record GameConfig := {
  requestExpireTime : option Z;
  requestReactions : option bool;
  embedColor : option Z;
  requestCooldownTime : option Number;
  aiDifficulty : option string }.

Record DuelRequest := {
  duel_oid : nat;
  duel_tunnel : MessagingTunnel;
  duel_invited : GuildMember;
  duel_expireTime : option Z;
  duel_useReactions : option bool;
  duel_embedColor : option Z }.

Record GameBoard := {
  board_oid : nat;
  board_tunnel : MessagingTunnel;
  entities : list Entity;
  board_configuration : GameConfig }.

#[global] Instance User_eq_dec : EqDecision User.
Proof. solve_decision. Defined.
#[global] Instance GuildMember_eq_dec : EqDecision GuildMember.
Proof. solve_decision. Defined.
#[global] Instance TextChannel_eq_dec : EqDecision TextChannel.
Proof. solve_decision. Defined.
#[global] Instance Permission_eq_dec : EqDecision Permission.
Proof. solve_decision. Defined.
#[global] Instance MessagingTunnel_eq_dec : EqDecision MessagingTunnel.
Proof. solve_decision. Defined.
#[global] Instance AI_eq_dec : EqDecision AI.
Proof. solve_decision. Defined.
#[global] Instance Entity_eq_dec : EqDecision Entity.
Proof. solve_decision. Defined.
#[global] Instance GameConfig_eq_dec : EqDecision GameConfig.
Proof. solve_decision. Defined.
#[global] Instance GameBoard_eq_dec : EqDecision GameBoard.
Proof. solve_decision. Defined.

(** The third argument of [endGame]: [winner?: Entity | null]. *)
Inductive WinnerArg :=
  | Undefined
  | Null
  | Winner (e : Entity).

(** ** Values thrown and rejected *)

Inductive Thrown :=
  | ThrownUndefined                       (* [Promise.reject()] *)
  | ThrownString (s : string)             (* [Promise.reject('duel.no-bot')] *)
  | ThrownError (message : option string) (* an object and its [message] *).

(** [err?.message] *)
Definition message_of (err : Thrown) : option string :=
  match err with
  | ThrownError message => message
  | ThrownUndefined | ThrownString _ => None
  end.

(** ** Notifications of the event handler *)

Inductive Event :=
  | NewGame (players : list Entity)
  | Win (winner : Entity) (loser : option Entity)
  | Tie (players : list Entity).

(** ** Observable steps *)

Inductive Query :=
  | QInteractionValid (tunnel : MessagingTunnel)
  | QNewGamePossible (tunnel : MessagingTunnel) (invited : option GuildMember).

Inductive Content :=
  | DuelContent (duel : DuelRequest)
  | BoardContent (gameboard : GameBoard).

Inductive Call :=
  | CReplyWith (tunnel : MessagingTunnel) (content : Content)
  | CDuelAttachTo (duel : DuelRequest) (message : Message)
  | CBoardAttachTo (gameboard : GameBoard) (message : Message).

Inductive Step :=
  | SValidate (q : Query) (answer : bool)
  | SNewAI (a : AI)
  | SNewDuelRequest (d : DuelRequest)
  | SNewGameBoard (g : GameBoard)
  | SEmit (e : Event)
  | SPush (g : GameBoard)
  | SSplice (start deleteCount : Z)
  | SCooldownSet (id : string) (endTime : Number)
  | SAwait (c : Call).

(** ** State *)

Record State := {
  gameboards : list GameBoard;
  memberCooldownEndTimes : gmap string Number;
  next_oid : nat;
  clock : Z;
  trace : list Step }.

Definition log (st : Step) (s : State) : State :=
  {| gameboards := gameboards s;
     memberCooldownEndTimes := memberCooldownEndTimes s;
     next_oid := next_oid s;
     clock := clock s;
     trace := trace s ++ [st] |}.

Definition set_gameboards (l : list GameBoard) (s : State) : State :=
  {| gameboards := l;
     memberCooldownEndTimes := memberCooldownEndTimes s;
     next_oid := next_oid s;
     clock := clock s;
     trace := trace s |}.

Definition set_cooldowns (m : gmap string Number) (s : State) : State :=
  {| gameboards := gameboards s;
     memberCooldownEndTimes := m;
     next_oid := next_oid s;
     clock := clock s;
     trace := trace s |}.

Definition alloc (s : State) : State :=
  {| gameboards := gameboards s;
     memberCooldownEndTimes := memberCooldownEndTimes s;
     next_oid := S (next_oid s);
     clock := clock s;
     trace := trace s |}.

Definition tick (elapsed : Z) (s : State) : State :=
  {| gameboards := gameboards s;
     memberCooldownEndTimes := memberCooldownEndTimes s;
     next_oid := next_oid s;
     clock := (clock s + elapsed)%Z;
     trace := trace s |}.

(** ** The monad of the manager's methods *)

Inductive Outcome (A : Type) :=
  | Resolved (a : A)
  | Rejected (err : Thrown).
Arguments Resolved {A} a.
Arguments Rejected {A} err.

Definition M (A : Type) : Type := State -> Outcome A * State.

Definition ret {A} (a : A) : M A := fun s => (Resolved a, s).

Definition bind {A B} (m : M A) (f : A -> M B) : M B := fun s =>
  match m s with
  | (Resolved a, s') => f a s'
  | (Rejected err, s') => (Rejected err, s')
  end.

Notation "'let*' x ':=' m 'in' k" := (bind m (fun x => k))
  (at level 10, x name, m at level 100, k at level 200,
   format "'[v' 'let*'  x  ':='  m  'in' '/' k ']'").

Notation "'do' m 'in' k" := (bind m (fun _ => k))
  (at level 10, m at level 100, k at level 200,
   format "'[v' 'do'  m  'in' '/' k ']'").

(** [throw err], and [return Promise.reject(err)] in an [async] function *)
Definition reject {A} (err : Thrown) : M A := fun s => (Rejected err, s).

(** [promise.catch(handler)] *)
Definition catch {A} (m : M A) (handler : Thrown -> M A) : M A := fun s =>
  match m s with
  | (Resolved a, s') => (Resolved a, s')
  | (Rejected err, s') => handler err s'
  end.

(** What an awaited promise settles to, and how long it took. *)
Record Settled (A : Type) := {
  elapsed : Z;
  settled : Thrown + A }.
Arguments elapsed {A} _.
Arguments settled {A} _.

(** [await promise]: a suspension point, marked in the trace. *)
Definition await {A} (c : Call) (promise : Settled A) : M A := fun s =>
  let s' := tick (elapsed promise) (log (SAwait c) s) in
  match settled promise with
  | inr a => (Resolved a, s')
  | inl err => (Rejected err, s')
  end.

(** ** JavaScript arrays *)

Fixpoint indexOf_from {A} `{EqDecision A} (x : A) (l : list A) (i : Z) : Z :=
  match l with
  | [] => (-1)%Z
  | y :: l' => if decide (y = x) then i else indexOf_from x l' (i + 1)%Z
  end.

(** [array.indexOf(x)]: the first index holding [x], or -1. *)
Definition indexOf {A} `{EqDecision A} (x : A) (l : list A) : Z :=
  indexOf_from x l 0%Z.

(** [array.splice(start, deleteCount)], the array it leaves: a negative
    [start] counts from the end, and both arguments are clamped. *)
Definition splice {A} (start deleteCount : Z) (l : list A) : list A :=
  let len := Z.of_nat (length l) in
  let actualStart :=
    if (start <? 0)%Z then Z.max (len + start) 0 else Z.min start len in
  let actualDeleteCount :=
    Z.min (Z.max deleteCount 0) (len - actualStart) in
  take (Z.to_nat actualStart) l
    ++ drop (Z.to_nat (actualStart + actualDeleteCount)) l.

(** [array.find(p)] *)
Definition find {A} (p : A -> bool) (l : list A) : option A := List.find p l.

(** ** The collaborators of the manager

    Their sources are outside this development; the manager is verified for
    every behaviour they can have. *)

Record Collaborators := {
  (* bot.configuration *)
  configuration : GameConfig;
  (* GameStateValidator, which reads the manager's state *)
  isInteractionValid : State -> MessagingTunnel -> bool;
  isNewGamePossible : State -> MessagingTunnel -> option GuildMember -> bool;
  (* bot.eventHandler: the first listener that throws, if any *)
  listeners : Event -> option Thrown;
  (* tunnel.replyWith, duel.attachTo, gameboard.attachTo *)
  replyWith : MessagingTunnel -> Content -> Settled Message;
  duel_attachTo : DuelRequest -> Message -> Settled unit;
  board_attachTo : GameBoard -> Message -> Settled unit;
  (* the enum AIDifficultyLevel, indexed by name, and the default level *)
  AIDifficultyLevel : string -> option Z;
  AI_default_difficulty : Z;
  (* invited.permissionsIn(channel) *)
  permissionsIn : GuildMember -> TextChannel -> list Permission }.

Section Manager.

Context (env : Collaborators).

(** *** Primitive operations *)

Definition validator_isInteractionValid (tunnel : MessagingTunnel) : M bool :=
  fun s =>
    let b := isInteractionValid env s tunnel in
    (Resolved b, log (SValidate (QInteractionValid tunnel) b) s).

Definition validator_isNewGamePossible
    (tunnel : MessagingTunnel) (invited : option GuildMember) : M bool :=
  fun s =>
    let b := isNewGamePossible env s tunnel invited in
    (Resolved b, log (SValidate (QNewGamePossible tunnel invited) b) s).

(** [eventHandler.emitEvent(name, data)]: runs the listeners; a listener
    that throws ends the emission and the exception reaches the caller. *)
Definition emitEvent (e : Event) : M unit := fun s =>
  let s' := log (SEmit e) s in
  match listeners env e with
  | Some err => (Rejected err, s')
  | None => (Resolved tt, s')
  end.

Definition gameboards_push (g : GameBoard) : M unit := fun s =>
  (Resolved tt, log (SPush g) (set_gameboards (gameboards s ++ [g]) s)).

Definition gameboards_indexOf (g : GameBoard) : M Z := fun s =>
  (Resolved (indexOf g (gameboards s)), s).

Definition gameboards_splice (start deleteCount : Z) : M unit := fun s =>
  (Resolved tt,
   log (SSplice start deleteCount)
       (set_gameboards (splice start deleteCount (gameboards s)) s)).

Definition memberCooldownEndTimes_set (id : string) (endTime : Number)
    : M unit :=
  fun s =>
    (Resolved tt,
     log (SCooldownSet id endTime)
         (set_cooldowns (<[id := endTime]> (memberCooldownEndTimes s)) s)).

(** [Date.now()]: the clock, in milliseconds, as a number. *)
Definition Date_now : M Number := fun s =>
  (Resolved (number_of_Z (clock s)), s).

(** Modelled from the spec: the constructor of [AI] is not among the
    sources.  The AI factory constructs an entity given an optional
    difficulty level, defaulting when it is absent. *)
Definition new_AI (difficulty : option Z) : M AI := fun s =>
  let a := {| ai_oid := next_oid s;
              ai_difficulty := default (AI_default_difficulty env) difficulty |} in
  (Resolved a, log (SNewAI a) (alloc s)).

(** Modelled from the spec: the constructor of [DuelRequest] is not among
    the sources.  On construction the request keeps its tunnel, the invited
    member, the expiration, the response choices and the colour, and performs
    no I/O. *)
Definition new_DuelRequest (tunnel : MessagingTunnel) (invited : GuildMember)
    (expireTime : option Z) (useReactions : option bool)
    (color : option Z) : M DuelRequest := fun s =>
  let d := {| duel_oid := next_oid s;
              duel_tunnel := tunnel;
              duel_invited := invited;
              duel_expireTime := expireTime;
              duel_useReactions := useReactions;
              duel_embedColor := color |} in
  (Resolved d, log (SNewDuelRequest d) (alloc s)).

(** Modelled from the spec: the constructor of [GameBoard] is not among the
    sources.  A board holds its tunnel, a configuration snapshot and exactly
    two entities: the inviting member (the tunnel's author) and the second
    participant it is given. *)
Definition new_GameBoard (tunnel : MessagingTunnel) (member2 : Entity)
    (config : GameConfig) : M GameBoard := fun s =>
  let g := {| board_oid := next_oid s;
              board_tunnel := tunnel;
              entities := [EMember (author tunnel); member2];
              board_configuration := config |} in
  (Resolved g, log (SNewGameBoard g) (alloc s)).

Definition tunnel_replyWith (tunnel : MessagingTunnel) (content : Content)
    : M Message :=
  await (CReplyWith tunnel content) (replyWith env tunnel content).

Definition DuelRequest_attachTo (duel : DuelRequest) (message : Message)
    : M unit :=
  await (CDuelAttachTo duel message) (duel_attachTo env duel message).

Definition GameBoard_attachTo (gameboard : GameBoard) (message : Message)
    : M unit :=
  await (CBoardAttachTo gameboard message)
        (board_attachTo env gameboard message).

(** *** createAI *)

(** A string is truthy when it is not empty. *)
Definition truthy (name : string) : bool := bool_decide (name ≠ "").

Definition createAI : M AI :=
  let aiDifficulty := aiDifficulty (configuration env) in
  new_AI (match aiDifficulty with
          | Some name =>
              if truthy name then AIDifficultyLevel env name else None
          | None => None
          end).

(** *** requestDuel *)

Definition requestDuel (tunnel : MessagingTunnel) (invited : GuildMember)
    : M unit :=
  let* valid := validator_isInteractionValid tunnel in
  if valid then
    let* possible := validator_isNewGamePossible tunnel (Some invited) in
    if negb possible then reject ThrownUndefined
    else
      let* duel := new_DuelRequest tunnel invited
                     (requestExpireTime (configuration env))
                     (requestReactions (configuration env))
                     (embedColor (configuration env)) in
      let* message := tunnel_replyWith tunnel (DuelContent duel) in
      do DuelRequest_attachTo duel message in
      let cooldown :=
        default number_zero (requestCooldownTime (configuration env)) in
      if number_lt number_zero cooldown then
        let* now := Date_now in
        memberCooldownEndTimes_set
          (member_id (author tunnel))
          (number_add now (number_mul cooldown (number_of_Z 1000)))
      else ret tt
  else ret tt.

(** *** createGame *)

Definition createGame (tunnel : MessagingTunnel) (invited : option GuildMember)
    : M unit :=
  let* valid := validator_isInteractionValid tunnel in
  if valid then
    let* possible := validator_isNewGamePossible tunnel invited in
    if negb possible then reject ThrownUndefined
    else
      let* member2 := match invited with
                      | Some m => ret (EMember m)
                      | None => let* a := createAI in ret (EAI a)
                      end in
      let* gameboard := new_GameBoard tunnel member2 (configuration env) in
      do emitEvent (NewGame (entities gameboard)) in
      do gameboards_push gameboard in
      let* message := tunnel_replyWith tunnel (BoardContent gameboard) in
      GameBoard_attachTo gameboard message
  else ret tt.

(** *** endGame *)

Definition endGame (gameboard : GameBoard) (winner : WinnerArg) : M unit :=
  do match winner with
     | Winner w =>
         emitEvent
           (Win w (find (fun entity => bool_decide (entity ≠ w))
                        (entities gameboard)))
     | Null => emitEvent (Tie (entities gameboard))
     | Undefined => ret tt
     end in
  let* i := gameboards_indexOf gameboard in
  gameboards_splice i 1.

(** *** GameCommand *)

Definition has (permissions : list Permission) (p : Permission) : bool :=
  bool_decide (p ∈ permissions).

Definition handleInvitation (tunnel : MessagingTunnel)
    (invited : option GuildMember) : M unit :=
  let handler :=
    match invited with
    | Some m => requestDuel tunnel m
    | None => createGame tunnel None
    end in
  catch handler (fun err =>
    reject (ThrownString (default "game.in-progress" (message_of err)))).

Definition processInvitation (tunnel : MessagingTunnel) (inviter : GuildMember)
    (invited : option GuildMember) : M unit :=
  do match invited with
     | Some inv =>
         if negb (user_bot (member_user inv)) then
           if bool_decide
                (user_id (member_user inviter) = user_id (member_user inv))
              || negb (has (permissionsIn env inv (channel tunnel)) ViewChannel)
           then reject (ThrownString "duel.unknown-user")
           else ret tt
         else reject (ThrownString "duel.no-bot")
     | None => ret tt
     end in
  handleInvitation tunnel invited.

End Manager.

(** ** What one invocation did *)

(** The steps a computation adds to the trace of the state it starts in. *)
Definition steps_of {A} (m : M A) (s : State) : list Step :=
  drop (length (trace s)) (trace (snd (m s))).

Definition emitted (tr : list Step) : list Event :=
  omap (fun st => match st with SEmit e => Some e | _ => None end) tr.






(** ** The outcome contract of [endGame], in the words of the spec *)

(** A concrete entity gives a [win] notification with that entity as winner
    and the other participant, found by identity difference, as loser; [null]
    gives a [tie] notification with both participants; an omitted argument
    gives no notification. *)
Definition outcome_notifications (g : GameBoard) (w : WinnerArg) : list Event :=
  match w with
  | Winner e => [Win e (List.find (fun e' => bool_decide (e' ≠ e)) (entities g))]
  | Null => [Tie (entities g)]
  | Undefined => []
  end.

(** One occurrence of [x], the first, is taken out of [l]; the rest stays
    as it is. *)
Definition removed_once {A} (x : A) (l l' : list A) : Prop :=
  ∃ l1 l2, l = l1 ++ x :: l2 ∧ (x ∉ l1) ∧ l' = l1 ++ l2.

(** Objects are allocated with increasing identities. *)
Definition heap_wf (s : State) : Prop :=
  ∀ g, g ∈ gameboards s →
    (board_oid g < next_oid s)%nat ∧
    ∀ a, EAI a ∈ entities g → (ai_oid a < next_oid s)%nat.

(** ** GameStateValidator *)

Module GameStateValidator.

Definition participates (m : GuildMember) (g : GameBoard) : bool :=
  bool_decide (EMember m ∈ entities g).

(** Modelled from the spec: [GameStateValidator.isNewGamePossible] is not
    among the sources.  It is a pure function of the registry and of the
    proposed participants, true only if neither the author nor, when present,
    the invited member participates in any existing registry entry; this
    holds for a request in any channel. *)
Definition isNewGamePossible (registry : list GameBoard)
    (tunnel : MessagingTunnel) (invited : option GuildMember) : bool :=
  negb (existsb
          (fun g =>
             participates (author tunnel) g
             || from_option (fun m => participates m g) false invited)
          registry).

End GameStateValidator.

(** [endGame] returns, having emitted exactly the notifications [evs] and
    taken the board out of the registry once. *)
Definition endGame_returns (env : Collaborators) (g : GameBoard) (w : WinnerArg)
    (s : State) (evs : list Event) : Prop :=
  fst (endGame env g w s) = Resolved tt
  ∧ emitted (steps_of (endGame env g w) s) = evs
  ∧ removed_once g (gameboards s) (gameboards (snd (endGame env g w s))).

(** ** The synchronous prefix of an entry point, as the spec words it *)








(** ** Sample objects

    Concrete members, boards, collaborators and states on which the
    definitions are evaluated. *)

Module Sample.

Definition alice : GuildMember :=
  {| member_oid := 1;
     member_user := {| user_id := "1001"; user_bot := false |} |}.

Definition bob : GuildMember :=
  {| member_oid := 2;
     member_user := {| user_id := "1002"; user_bot := false |} |}.

Definition carol : GuildMember :=
  {| member_oid := 3;
     member_user := {| user_id := "1003"; user_bot := false |} |}.

Definition robot : GuildMember :=
  {| member_oid := 4;
     member_user := {| user_id := "1004"; user_bot := true |} |}.

Definition lobby : TextChannel := {| channel_id := "lobby" |}.

Definition arena : TextChannel := {| channel_id := "arena" |}.

Definition tunnel_alice : MessagingTunnel :=
  {| tunnel_oid := 5; author := alice; channel := lobby |}.

Definition tunnel_carol : MessagingTunnel :=
  {| tunnel_oid := 6; author := carol; channel := arena |}.

Definition config : GameConfig :=
  {| requestExpireTime := Some 60%Z;
     requestReactions := Some true;
     embedColor := None;
     requestCooldownTime := Some (number_of_Z 30);
     aiDifficulty := Some "Hard" |}.

Definition board_alice_bob : GameBoard :=
  {| board_oid := 7;
     board_tunnel := tunnel_alice;
     entities := [EMember alice; EMember bob];
     board_configuration := config |}.

Definition board_carol_ai : GameBoard :=
  {| board_oid := 9;
     board_tunnel := tunnel_carol;
     entities := [EMember carol; EAI {| ai_oid := 8; ai_difficulty := 3 |}];
     board_configuration := config |}.

Definition levels (name : string) : option Z :=
  if decide (name = "Easy") then Some 1%Z
  else if decide (name = "Medium") then Some 2%Z
  else if decide (name = "Hard") then Some 3%Z
  else None.

Definition sent : Message := {| message_id := "2001" |}.

(** Listeners: none throws; a [newGame] listener vetoes; a listener of the
    outcome notifications throws. *)
Definition nobody_throws : Event -> option Thrown := fun _ => None.

Definition veto (err : Thrown) : Event -> option Thrown := fun e =>
  match e with NewGame _ => Some err | _ => None end.

Definition outcome_listener_throws (err : Thrown) : Event -> option Thrown :=
  fun e => match e with NewGame _ => None | _ => Some err end.

(** Collaborators that answer [valid] to [isInteractionValid], decide
    [isNewGamePossible] as the validator does, have the listeners [throws],
    and settle [replyWith] and [attachTo] as given. *)
Definition collaborators (valid : bool) (throws : Event -> option Thrown)
    (reply : Thrown + Message) (attach : Thrown + unit) : Collaborators :=
  {| configuration := config;
     isInteractionValid := fun _ _ => valid;
     isNewGamePossible := fun s tunnel invited =>
       GameStateValidator.isNewGamePossible (gameboards s) tunnel invited;
     listeners := throws;
     replyWith := fun _ _ => {| elapsed := 120; settled := reply |};
     duel_attachTo := fun _ _ => {| elapsed := 80; settled := attach |};
     board_attachTo := fun _ _ => {| elapsed := 80; settled := attach |};
     AIDifficultyLevel := levels;
     AI_default_difficulty := 4;
     permissionsIn := fun m c =>
       if decide (m = carol) then [SendMessages]
       else [ViewChannel; SendMessages] |}.

(** Everything goes well. *)
Definition friendly : Collaborators :=
  collaborators true nobody_throws (inr sent) (inr tt).

(** The interaction is not valid any more. *)
Definition stale : Collaborators :=
  collaborators false nobody_throws (inr sent) (inr tt).

(** A [newGame] listener vetoes every game. *)
Definition vetoing : Collaborators :=
  collaborators true (veto (ThrownError (Some "tournament.closed")))
                (inr sent) (inr tt).

(** A listener of [win] and [tie] throws. *)
Definition sore_loser : Collaborators :=
  collaborators true (outcome_listener_throws (ThrownError (Some "scoreboard")))
                (inr sent) (inr tt).

(** The reply cannot be sent. *)
Definition unreachable : Collaborators :=
  collaborators true nobody_throws (inl (ThrownError (Some "Missing Access")))
                (inr tt).

(** Nobody can view any channel. *)
Definition secluded : Collaborators :=
  {| configuration := configuration friendly;
     isInteractionValid := isInteractionValid friendly;
     isNewGamePossible := isNewGamePossible friendly;
     listeners := listeners friendly;
     replyWith := replyWith friendly;
     duel_attachTo := duel_attachTo friendly;
     board_attachTo := board_attachTo friendly;
     AIDifficultyLevel := AIDifficultyLevel friendly;
     AI_default_difficulty := AI_default_difficulty friendly;
     permissionsIn := fun _ _ => [SendMessages] |}.

Definition state (registry : list GameBoard) : State :=
  {| gameboards := registry;
     memberCooldownEndTimes := ∅;
     next_oid := 10;
     clock := 1700000000000;
     trace := [] |}.

End Sample.

(** ** The registry invariant and the constructor *)

(** [new GameStateManager(bot)]: no board, no cooldown. *)
Definition new_GameStateManager (oid : nat) (now : Z) : State :=
  {| gameboards := [];
     memberCooldownEndTimes := ∅;
     next_oid := oid;
     clock := now;
     trace := [] |}.

(** The registered boards are allocated objects with pairwise distinct
    identities. *)
Definition registry_wf (s : State) : Prop :=
  heap_wf s ∧ NoDup (board_oid <$> gameboards s).

(** ** The command handlers of [GameCommand] *)

(** The command fields of [bot.configuration]. *)
Record CommandConfig := {
  textCommand : option string;
  command : option string;
  commandOptionName : option string }.

(** A received discord.js message, as far as [handleMessage] reads it. *)
Record IncomingMessage := {
  incoming_member : option GuildMember;
  incoming_author : User;
  incoming_channel_isTextBased : bool;
  incoming_content : string;
  incoming_mentions_members : option (list GuildMember) }.

(** A received discord.js interaction, as far as [handleInteraction] reads
    it; [interaction.channel] can be null. *)
Record Interaction := {
  interaction_isChatInputCommand : bool;
  interaction_inCachedGuild : bool;
  interaction_channel_isTextBased : option bool;
  interaction_commandName : string;
  interaction_member : GuildMember;
  interaction_options_getMember : string -> option GuildMember }.

(** What the handlers do besides calling the manager. *)
Inductive CommandStep :=
  | CFetch (member : GuildMember)
  | CReplyError (tunnel : MessagingTunnel) (content : string) (direct : bool).

Record CommandCollaborators := {
  command_configuration : CommandConfig;
  (* new TextMessagingTunnel(message) *)
  TextMessagingTunnel : IncomingMessage -> MessagingTunnel;
  (* new CommandInteractionMessagingTunnel(interaction) *)
  CommandInteractionMessagingTunnel : Interaction -> MessagingTunnel;
  (* member.fetch() *)
  member_fetch : GuildMember -> Settled GuildMember;
  (* localize.__(error) *)
  localize : Thrown -> string;
  (* tunnel.replyWith({ content }, direct) *)
  replyWith_content : MessagingTunnel -> string -> bool -> Settled Message }.

Record CommandState := {
  manager_state : State;
  command_trace : list CommandStep }.

Definition CM (A : Type) : Type := CommandState -> Outcome A * CommandState.

Definition cm_ret {A} (a : A) : CM A := fun c => (Resolved a, c).

Definition cm_bind {A B} (m : CM A) (f : A -> CM B) : CM B := fun c =>
  match m c with
  | (Resolved a, c') => f a c'
  | (Rejected err, c') => (Rejected err, c')
  end.

Definition cm_catch {A} (m : CM A) (handler : Thrown -> CM A) : CM A := fun c =>
  match m c with
  | (Resolved a, c') => (Resolved a, c')
  | (Rejected err, c') => handler err c'
  end.

(** A call into the manager. *)
Definition cm_lift {A} (m : M A) : CM A := fun c =>
  let (o, s') := m (manager_state c) in
  (o, {| manager_state := s'; command_trace := command_trace c |}).

(** [await promise] in a handler. *)
Definition cm_await {A} (st : CommandStep) (promise : Settled A) : CM A := fun c =>
  let c' := {| manager_state := tick (elapsed promise) (manager_state c);
               command_trace := command_trace c ++ [st] |} in
  match settled promise with
  | inr a => (Resolved a, c')
  | inl err => (Rejected err, c')
  end.

Section GameCommand.

Context (env : Collaborators) (cenv : CommandCollaborators).

(** [async error => { await tunnel.replyWith({ content: localize.__(error) }, true); }] *)
Definition reply_error (tunnel : MessagingTunnel) (error : Thrown) : CM unit :=
  cm_bind
    (cm_await (CReplyError tunnel (localize cenv error) true)
              (replyWith_content cenv tunnel (localize cenv error) true))
    (fun _ => cm_ret tt).

Definition handleMessage (message : IncomingMessage) (noTrigger : bool)
    : CM unit :=
  match incoming_member message with
  | Some member =>
      if negb (user_bot (incoming_author message))
         && incoming_channel_isTextBased message
         && (noTrigger
             || match textCommand (command_configuration cenv) with
                | Some trigger =>
                    truthy trigger
                    && String.prefix trigger (incoming_content message)
                | None => false
                end)
      then
        let tunnel := TextMessagingTunnel cenv message in
        let invited :=
          match incoming_mentions_members message with
          | Some members => head members
          | None => None
          end in
        cm_catch (cm_lift (processInvitation env tunnel member invited))
                 (reply_error tunnel)
      else cm_ret tt
  | None => cm_ret tt
  end.

Definition handleInteraction (interaction : option Interaction)
    (noTrigger : bool) : CM unit :=
  match interaction with
  | Some interaction =>
      if interaction_isChatInputCommand interaction
         && interaction_inCachedGuild interaction
         && default false (interaction_channel_isTextBased interaction)
         && (noTrigger
             || bool_decide (Some (interaction_commandName interaction)
                             = command (command_configuration cenv)))
      then
        let tunnel := CommandInteractionMessagingTunnel cenv interaction in
        cm_bind
          (cm_await (CFetch (interaction_member interaction))
                    (member_fetch cenv (interaction_member interaction)))
          (fun member =>
             let mentionned :=
               interaction_options_getMember interaction
                 (default "opponent"
                    (commandOptionName (command_configuration cenv))) in
             cm_catch (cm_lift (processInvitation env tunnel member mentionned))
                      (reply_error tunnel))
      else cm_ret tt
  | None => cm_ret tt
  end.

End GameCommand.

(** ** The game channels of [TicTacToeBot] *)

Record BotState (GameChannel : Type) := {
  bot_channels : list GameChannel;
  bot_next_oid : nat }.
Arguments bot_channels {GameChannel} _.
Arguments bot_next_oid {GameChannel} _.

Section TicTacToeBot.

(** [GameChannel] is outside this development: its [channel] getter and its
    constructor are taken as they come. *)
Context {GameChannel : Type}.
Context (GameChannel_channel : GameChannel -> TextChannel).
Context (new_GameChannel : nat -> TextChannel -> GameChannel).

Definition getorCreateGameChannel (parent : TextChannel)
    (b : BotState GameChannel) : GameChannel * BotState GameChannel :=
  match find (fun channel => bool_decide (GameChannel_channel channel = parent))
             (bot_channels b) with
  | Some found => (found, b)
  | None =>
      let instance := new_GameChannel (bot_next_oid b) parent in
      (instance,
       {| bot_channels := bot_channels b ++ [instance];
          bot_next_oid := S (bot_next_oid b) |})
  end.

End TicTacToeBot.


(** ** Sample messages, interactions and channels *)

Module SampleCommand.

Definition config : CommandConfig :=
  {| textCommand := Some "!ttt";
     command := Some "tictactoe";
     commandOptionName := None |}.

Definition tunnel_of_message (message : IncomingMessage) : MessagingTunnel :=
  {| tunnel_oid := 20;
     author := default Sample.alice (incoming_member message);
     channel := Sample.lobby |}.

Definition tunnel_of_interaction (i : Interaction) : MessagingTunnel :=
  {| tunnel_oid := 21;
     author := interaction_member i;
     channel := Sample.lobby |}.

Definition key_of (error : Thrown) : string :=
  match error with
  | ThrownString key => key
  | _ => "error"
  end.

Definition collaborators (fetch : GuildMember -> Thrown + GuildMember)
    (reply : Thrown + Message) : CommandCollaborators :=
  {| command_configuration := config;
     TextMessagingTunnel := tunnel_of_message;
     CommandInteractionMessagingTunnel := tunnel_of_interaction;
     member_fetch := fun m => {| elapsed := 40; settled := fetch m |};
     localize := key_of;
     replyWith_content := fun _ _ _ => {| elapsed := 60; settled := reply |} |}.

Definition online : CommandCollaborators :=
  collaborators inr (inr Sample.sent).

Definition offline : CommandCollaborators :=
  collaborators (fun _ => inl (ThrownError (Some "Unknown Member")))
                (inl (ThrownError (Some "Missing Permissions"))).

Definition message_of_alice (content : string)
    (mentions : option (list GuildMember)) : IncomingMessage :=
  {| incoming_member := Some Sample.alice;
     incoming_author := member_user Sample.alice;
     incoming_channel_isTextBased := true;
     incoming_content := content;
     incoming_mentions_members := mentions |}.

Definition message_of_robot : IncomingMessage :=
  {| incoming_member := Some Sample.robot;
     incoming_author := member_user Sample.robot;
     incoming_channel_isTextBased := true;
     incoming_content := "!ttt";
     incoming_mentions_members := None |}.

Definition interaction_of_alice (opponent : option GuildMember) : Interaction :=
  {| interaction_isChatInputCommand := true;
     interaction_inCachedGuild := true;
     interaction_channel_isTextBased := Some true;
     interaction_commandName := "tictactoe";
     interaction_member := Sample.alice;
     interaction_options_getMember := fun name =>
       if decide (name = "opponent") then opponent else None |}.

Definition started (s : State) : CommandState :=
  {| manager_state := s; command_trace := [] |}.

(** Game channels as pairs of an identity and the parent channel. *)
Definition channels : BotState (nat * TextChannel) :=
  {| bot_channels := [(1%nat, Sample.lobby)]; bot_next_oid := 2 |}.

End SampleCommand.

(** * Properties *)

(** ** Arrays *)

Example splice_inside : splice 1 1 [10; 20; 30]%Z = [10; 30]%Z.
Proof. reflexivity. Qed.

Example splice_from_the_end : splice (-1) 1 [10; 20; 30]%Z = [10; 20]%Z.
Proof. reflexivity. Qed.

Example splice_empty : splice (-1) 1 (@nil Z) = [].
Proof. reflexivity. Qed.

Example indexOf_missing : indexOf 40%Z [10; 20; 30]%Z = (-1)%Z.
Proof. reflexivity. Qed.

(** ** Numbers *)

(** The arithmetic rounds: with a cooldown of 2^53 - 1 seconds the end time
    is not the exact sum. *)
Example end_time_is_rounded :
  number_add (number_of_Z 1700000000200)
             (number_mul (number_of_Z (2 ^ 53 - 1)) (number_of_Z 1000))
  = number_of_Z 9007200954740990976
  ∧ (1700000000200 + (2 ^ 53 - 1) * 1000)%Z = 9007200954740991200%Z.
Proof. split; vm_compute; reflexivity. Qed.

(** Half a second is a cooldown, and it is greater than 0. *)
Example fractional_cooldown :
  number_lt number_zero (SpecFloat.binary_normalize 53 1024 1 (-1) false) = true
  ∧ number_mul (SpecFloat.binary_normalize 53 1024 1 (-1) false)
               (number_of_Z 1000)
    = number_of_Z 500.
Proof. split; vm_compute; reflexivity. Qed.

(** NaN and negative cooldowns are not greater than 0. *)
Example cooldown_not_positive :
  number_lt number_zero SpecFloat.S754_nan = false
  ∧ number_lt number_zero (number_of_Z (-5)) = false
  ∧ number_lt number_zero number_zero = false.
Proof. split_and!; reflexivity. Qed.

Lemma indexOf_from_absent {A} `{EqDecision A} (x : A) (l : list A) (i : Z) :
  x ∉ l → indexOf_from x l i = (-1)%Z.
Proof.
  revert i. induction l as [|y l IH]; intros i Hx; simpl; [done|].
  destruct (decide (y = x)) as [->|Hne].
  - exfalso. apply Hx. left.
  - apply IH. intros Hin. apply Hx. by right.
Qed.

Lemma indexOf_from_first {A} `{EqDecision A} (x : A) (l1 l2 : list A) (i : Z) :
  x ∉ l1 → indexOf_from x (l1 ++ x :: l2) i = (i + Z.of_nat (length l1))%Z.
Proof.
  revert i. induction l1 as [|y l1 IH]; intros i Hx; simpl.
  - rewrite decide_True by done. lia.
  - destruct (decide (y = x)) as [->|Hne].
    + exfalso. apply Hx. left.
    + rewrite IH; [lia|]. intros Hin. apply Hx. by right.
Qed.

Lemma first_occurrence {A} `{EqDecision A} (x : A) (l : list A) :
  x ∈ l → ∃ l1 l2, l = l1 ++ x :: l2 ∧ (x ∉ l1).
Proof.
  induction l as [|y l IH]; intros Hin.
  - by apply elem_of_nil in Hin.
  - destruct (decide (y = x)) as [->|Hne].
    + exists [], l. split; [done|]. apply not_elem_of_nil.
    + apply elem_of_cons in Hin as [->|Hin]; [done|].
      destruct (IH Hin) as (l1 & l2 & -> & Hl1).
      exists (y :: l1), l2. split; [done|].
      intros [->|?]%elem_of_cons; [done|]. by apply Hl1.
Qed.

Lemma splice_one_at {A} (x : A) (l1 l2 : list A) :
  splice (Z.of_nat (length l1)) 1 (l1 ++ x :: l2) = l1 ++ l2.
Proof.
  unfold splice. rewrite length_app. simpl length.
  assert (Hlt : (Z.of_nat (length l1) <? 0)%Z = false) by (apply Z.ltb_ge; lia).
  rewrite Hlt.
  replace (Z.min (Z.of_nat (length l1)) (Z.of_nat (length l1 + S (length l2))))
    with (Z.of_nat (length l1)) by lia.
  replace (Z.min (Z.max 1 0) (Z.of_nat (length l1 + S (length l2)) - Z.of_nat (length l1)))
    with 1%Z by lia.
  rewrite Nat2Z.id.
  replace (Z.to_nat (Z.of_nat (length l1) + 1)) with (length l1 + 1)%nat by lia.
  rewrite take_app_length.
  rewrite <- drop_drop, drop_app_length. done.
Qed.

Lemma splice_minus_one {A} (l : list A) :
  splice (-1) 1 l = removelast l.
Proof.
  destruct (decide (l = [])) as [->|Hne]; [done|].
  destruct (exists_last Hne) as (l' & x & ->).
  rewrite removelast_last. unfold splice. rewrite length_app. simpl length.
  change (-1 <? 0)%Z with true. cbv iota.
  replace (Z.max (Z.of_nat (length l' + 1) + -1) 0)
    with (Z.of_nat (length l')) by lia.
  replace (Z.min (Z.max 1 0) (Z.of_nat (length l' + 1) - Z.of_nat (length l')))
    with 1%Z by lia.
  rewrite Nat2Z.id.
  replace (Z.to_nat (Z.of_nat (length l') + 1)) with (length l' + 1)%nat by lia.
  rewrite take_app_length.
  rewrite <- drop_drop, drop_app_length. simpl. by rewrite app_nil_r.
Qed.

(** ** What an invocation adds to the trace *)

Lemma steps_of_extends {A} (m : M A) (s : State) (tr : list Step) :
  trace (snd (m s)) = trace s ++ tr → steps_of m s = tr.
Proof. unfold steps_of. intros ->. apply drop_app_length. Qed.

(** ** endGame *)

Section EndGame.

Context (env : Collaborators).

Lemma endGame_emits_then_splices (g : GameBoard) (w : WinnerArg) (e : Event)
    (s : State) :
  outcome_notifications g w = [e] →
  listeners env e = None →
  endGame env g w s =
    (Resolved tt,
     log (SSplice (indexOf g (gameboards s)) 1)
         (set_gameboards (splice (indexOf g (gameboards s)) 1 (gameboards s))
                         (log (SEmit e) s))).
Proof.
  intros Hw He. destruct w as [| |w]; simplify_eq/=;
    unfold endGame, bind, emitEvent, find; rewrite He; reflexivity.
Qed.

Lemma endGame_thrown (g : GameBoard) (w : WinnerArg) (e : Event) (err : Thrown)
    (s : State) :
  outcome_notifications g w = [e] →
  listeners env e = Some err →
  endGame env g w s = (Rejected err, log (SEmit e) s).
Proof.
  intros Hw He. destruct w as [| |w]; simplify_eq/=;
    unfold endGame, bind, emitEvent, find; rewrite He; reflexivity.
Qed.

Lemma endGame_steps_emitted (g : GameBoard) (w : WinnerArg) (s : State) :
  emitted (steps_of (endGame env g w) s) = outcome_notifications g w.
Proof.
  destruct (outcome_notifications g w) as [|e [|e' evs]] eqn:Hw.
  - destruct w; simplify_eq/=.
    rewrite (steps_of_extends _ _ [SSplice (indexOf g (gameboards s)) 1]); done.
  - destruct (listeners env e) as [err|] eqn:He.
    + rewrite (steps_of_extends _ _ [SEmit e]); [done|].
      by rewrite (endGame_thrown g w e err s).
    + rewrite (steps_of_extends _ _
                 [SEmit e; SSplice (indexOf g (gameboards s)) 1]); [done|].
      rewrite (endGame_emits_then_splices g w e s) by done.
      simpl. by rewrite <- app_assoc.
  - destruct w; simplify_eq/=.
Qed.

Lemma splice_indexOf_registered (g : GameBoard) (l : list GameBoard) :
  g ∈ l → removed_once g l (splice (indexOf g l) 1 l).
Proof.
  intros (l1 & l2 & -> & Hl1)%first_occurrence.
  exists l1, l2. split_and!; [done..|].
  unfold indexOf. rewrite indexOf_from_first by done.
  rewrite Z.add_0_l. apply splice_one_at.
Qed.

Lemma splice_indexOf_unregistered (g : GameBoard) (l : list GameBoard) :
  g ∉ l → splice (indexOf g l) 1 l = removelast l.
Proof.
  intros Hg. unfold indexOf. rewrite indexOf_from_absent by done.
  apply splice_minus_one.
Qed.

Lemma find_other_first (e1 e2 : Entity) :
  e1 ≠ e2 → List.find (fun e' => bool_decide (e' ≠ e1)) [e1; e2] = Some e2.
Proof.
  intros Hne. simpl. rewrite bool_decide_false by (intros H; by apply H).
  by rewrite bool_decide_true by done.
Qed.

Lemma find_other_second (e1 e2 : Entity) :
  e1 ≠ e2 → List.find (fun e' => bool_decide (e' ≠ e2)) [e1; e2] = Some e1.
Proof. intros Hne. simpl. by rewrite bool_decide_true by done. Qed.

Lemma endGame_returns_registered (g : GameBoard) (w : WinnerArg) (s : State) :
  g ∈ gameboards s →
  Forall (fun e => listeners env e = None) (outcome_notifications g w) →
  endGame_returns env g w s (outcome_notifications g w).
Proof.
  intros Hg Hquiet. split_and!.
  - destruct (outcome_notifications g w) as [|e [|e' evs]] eqn:Hw.
    + by destruct w; simplify_eq/=.
    + apply Forall_cons in Hquiet as [He _].
      by rewrite (endGame_emits_then_splices g w e s).
    + destruct w; simplify_eq/=.
  - apply endGame_steps_emitted.
  - destruct (outcome_notifications g w) as [|e [|e' evs]] eqn:Hw.
    + destruct w; simplify_eq/=. by apply splice_indexOf_registered.
    + apply Forall_cons in Hquiet as [He _].
      rewrite (endGame_emits_then_splices g w e s) by done. simpl.
      by apply splice_indexOf_registered.
    + destruct w; simplify_eq/=.
Qed.

(** C1 (amended): for every gameboard present in the registry whose
    entities are two distinct objects e1 and e2: endGame with a winner w that
    is one of them, when no listener of the notification throws, returns
    having emitted exactly one win notification whose winner is w and whose
    loser is the other entity; endGame with null, when no listener throws,
    returns having emitted exactly one tie notification carrying both
    entities; endGame with the argument omitted returns having emitted no
    notification; and in all three cases the first occurrence of the
    gameboard is taken out of the registry and the other entries stay. *)
Theorem endGame_registered_outcomes (g : GameBoard) (e1 e2 : Entity) (s : State) :
  entities g = [e1; e2] → e1 ≠ e2 → g ∈ gameboards s →
  (∀ w loser, (w = e1 ∧ loser = e2) ∨ (w = e2 ∧ loser = e1) →
     listeners env (Win w (Some loser)) = None →
     endGame_returns env g (Winner w) s [Win w (Some loser)])
  ∧ (listeners env (Tie [e1; e2]) = None →
     endGame_returns env g Null s [Tie [e1; e2]])
  ∧ endGame_returns env g Undefined s [].
Proof.
  intros Hents Hne Hg. split_and!.
  - intros w loser Hw Hquiet.
    assert (Hn : outcome_notifications g (Winner w) = [Win w (Some loser)]).
    { simpl. rewrite Hents.
      destruct Hw as [[-> ->]|[-> ->]];
        [by rewrite find_other_first|by rewrite find_other_second]. }
    rewrite <- Hn. apply endGame_returns_registered; [done|].
    rewrite Hn. by apply Forall_singleton.
  - intros Hquiet.
    assert (Hn : outcome_notifications g Null = [Tie [e1; e2]])
      by (simpl; by rewrite Hents).
    rewrite <- Hn. apply endGame_returns_registered; [done|].
    rewrite Hn. by apply Forall_singleton.
  - by apply (endGame_returns_registered g Undefined s).
Qed.

(** C9 (amended): for every gameboard g that is not in the registry,
    endGame still performs the notification branch of its winner argument.
    When no listener of that notification throws, endGame returns and the
    registry has lost its last element: it is one shorter when it was not
    empty although g was never registered, and it is unchanged only when it
    was empty.  When a listener throws, endGame throws the same error and the
    registry is unchanged. *)
Theorem endGame_unregistered_drops_last (g : GameBoard) (w : WinnerArg) (s : State) :
  g ∉ gameboards s →
  emitted (steps_of (endGame env g w) s) = outcome_notifications g w
  ∧ (Forall (fun e => listeners env e = None) (outcome_notifications g w) →
     fst (endGame env g w s) = Resolved tt
     ∧ indexOf g (gameboards s) = (-1)%Z
     ∧ (∀ l last, gameboards s = l ++ [last] →
          gameboards (snd (endGame env g w s)) = l)
     ∧ (gameboards s ≠ [] →
          S (length (gameboards (snd (endGame env g w s))))
          = length (gameboards s))
     ∧ (gameboards (snd (endGame env g w s)) = gameboards s
        ↔ gameboards s = []))
  ∧ (∀ e err, outcome_notifications g w = [e] → listeners env e = Some err →
     fst (endGame env g w s) = Rejected err
     ∧ gameboards (snd (endGame env g w s)) = gameboards s).
Proof.
  intros Hg. split_and!; [apply endGame_steps_emitted| |].
  2: { intros e err Hw He. by rewrite (endGame_thrown g w e err s). }
  intros Hquiet.
  assert (Hrun : fst (endGame env g w s) = Resolved tt
                 ∧ gameboards (snd (endGame env g w s))
                   = removelast (gameboards s)).
  { destruct (outcome_notifications g w) as [|e [|e' evs]] eqn:Hw.
    - destruct w; simplify_eq/=. split; [done|].
      by apply splice_indexOf_unregistered.
    - apply Forall_cons in Hquiet as [He _].
      rewrite (endGame_emits_then_splices g w e s) by done. simpl.
      split; [done|]. by apply splice_indexOf_unregistered.
    - destruct w; simplify_eq/=. }
  destruct Hrun as [Hret Hreg]. rewrite Hreg. split_and!.
  - done.
  - unfold indexOf. by apply indexOf_from_absent.
  - intros l last ->. apply removelast_last.
  - intros Hne. destruct (exists_last Hne) as (l & x & ->).
    rewrite removelast_last, length_app. simpl. lia.
  - split; [|by intros ->].
    intros Heq. destruct (decide (gameboards s = [])) as [|Hne]; [done|].
    destruct (exists_last Hne) as (l & x & Hl). rewrite Hl in Heq.
    rewrite removelast_last in Heq.
    apply (f_equal length) in Heq. rewrite length_app in Heq. simpl in Heq. lia.
Qed.

End EndGame.

(** C1, witness: alice wins the registered board of alice and bob. *)
Lemma endGame_registered_outcomes_witness :
  endGame_returns Sample.friendly Sample.board_alice_bob
    (Winner (EMember Sample.alice))
    (Sample.state [Sample.board_carol_ai; Sample.board_alice_bob])
    [Win (EMember Sample.alice) (Some (EMember Sample.bob))].
Proof.
  refine (proj1 (endGame_registered_outcomes Sample.friendly
            Sample.board_alice_bob (EMember Sample.alice) (EMember Sample.bob)
            (Sample.state [Sample.board_carol_ai; Sample.board_alice_bob])
            _ _ _) _ _ _ _).
  - reflexivity.
  - discriminate.
  - simpl. right. left.
  - left. split; reflexivity.
  - reflexivity.
Defined.

(** C1, counterexample.  First, the board of alice and bob is not in the
    registry, which holds the board of carol: endGame returns and the
    registry is empty; carol's board is gone and no occurrence of the board
    that was ended has been taken out.  Second, the board of alice and bob is
    registered and a listener of the win notification throws: endGame throws,
    and the board is still in the registry. *)
Lemma endGame_not_always_removing :
  (fst (endGame Sample.friendly Sample.board_alice_bob Undefined
          (Sample.state [Sample.board_carol_ai])) = Resolved tt
   ∧ gameboards (snd (endGame Sample.friendly Sample.board_alice_bob Undefined
                        (Sample.state [Sample.board_carol_ai]))) = []
   ∧ ¬ endGame_returns Sample.friendly Sample.board_alice_bob Undefined
         (Sample.state [Sample.board_carol_ai]) [])
  ∧ (fst (endGame Sample.sore_loser Sample.board_alice_bob
            (Winner (EMember Sample.alice))
            (Sample.state [Sample.board_alice_bob]))
     = Rejected (ThrownError (Some "scoreboard"))
     ∧ gameboards (snd (endGame Sample.sore_loser Sample.board_alice_bob
                          (Winner (EMember Sample.alice))
                          (Sample.state [Sample.board_alice_bob])))
       = [Sample.board_alice_bob]
     ∧ ¬ endGame_returns Sample.sore_loser Sample.board_alice_bob
           (Winner (EMember Sample.alice))
           (Sample.state [Sample.board_alice_bob])
           [Win (EMember Sample.alice) (Some (EMember Sample.bob))]).
Proof.
  split; split_and!; try reflexivity.
  - intros (_ & _ & l1 & l2 & Hl & _ & _). simpl in Hl.
    destruct l1 as [|x [|y l1]]; simplify_eq/=.
  - intros (Hret & _). discriminate Hret.
Qed.

(** C9, witness: ending the unregistered board of alice and bob with a tie
    empties a registry that held only carol's board. *)
Lemma endGame_unregistered_drops_last_witness :
  emitted (steps_of (endGame Sample.friendly Sample.board_alice_bob Null)
             (Sample.state [Sample.board_carol_ai]))
  = [Tie [EMember Sample.alice; EMember Sample.bob]]
  ∧ gameboards (snd (endGame Sample.friendly Sample.board_alice_bob Null
                       (Sample.state [Sample.board_carol_ai]))) = [].
Proof.
  assert (Hout : Sample.board_alice_bob
                 ∉ gameboards (Sample.state [Sample.board_carol_ai])).
  { simpl. intros [?|?%elem_of_nil]%elem_of_cons; [discriminate|done]. }
  destruct (endGame_unregistered_drops_last Sample.friendly
              Sample.board_alice_bob Null
              (Sample.state [Sample.board_carol_ai]) Hout)
    as (Hemit & Hrun & _).
  split; [exact Hemit|].
  destruct Hrun as (_ & _ & Hlast & _).
  - repeat constructor.
  - exact (Hlast [] Sample.board_carol_ai eq_refl).
Defined.

(** C9, counterexample: the board of alice and bob is not in the registry,
    which holds carol's board, and a listener of the tie notification throws:
    endGame throws and the registry, although not empty, is unchanged. *)
Lemma endGame_unregistered_listener_throws :
  (Sample.board_alice_bob ∉ gameboards (Sample.state [Sample.board_carol_ai]))
  ∧ fst (endGame Sample.sore_loser Sample.board_alice_bob Null
           (Sample.state [Sample.board_carol_ai]))
    = Rejected (ThrownError (Some "scoreboard"))
  ∧ gameboards (snd (endGame Sample.sore_loser Sample.board_alice_bob Null
                       (Sample.state [Sample.board_carol_ai])))
    = [Sample.board_carol_ai].
Proof.
  split_and!; [|reflexivity..].
  simpl. intros [?|?%elem_of_nil]%elem_of_cons; [discriminate|done].
Qed.

(** ** Reading the trace *)







(** ** requestDuel and createGame *)

Ltac unfold_manager :=
  unfold createGame, requestDuel, createAI, new_AI, new_GameBoard,
    new_DuelRequest, tunnel_replyWith, GameBoard_attachTo,
    DuelRequest_attachTo, await, emitEvent, gameboards_push,
    validator_isInteractionValid, validator_isNewGamePossible,
    memberCooldownEndTimes_set, Date_now, bind, ret, reject in *.

(** Splits an invocation into its paths, one per answer of the
    collaborators. *)
Ltac run_paths :=
  unfold steps_of in *; unfold_manager;
  repeat (simpl in *; case_match); simplify_eq/=.

Ltac read_steps :=
  unfold steps_of in *; simpl in *; rewrite <- ?app_assoc in *;
  rewrite ?drop_app_length in *; simpl in *.

Ltac find_elem :=
  solve [repeat first [apply list_elem_of_here | apply list_elem_of_further]].

Ltac elem_cases H :=
  repeat (apply elem_of_cons in H as [H|H]; simplify_eq/=);
  try (by apply elem_of_nil in H).

Section EntryPoints.

Context (env : Collaborators).

(** C7 (amended): for every tunnel for which isInteractionValid returns
    false, requestDuel and createGame resolve without a value: the only step
    taken is the validator call, so no DuelRequest, AI or GameBoard is
    constructed, nothing is emitted or sent, and the registry, the cooldown
    map, the allocator and the clock are those of the initial state. *)
Theorem invalid_interaction_resolves_silently (tunnel : MessagingTunnel)
    (invited : GuildMember) (invited' : option GuildMember) (s : State) :
  isInteractionValid env s tunnel = false →
  requestDuel env tunnel invited s
    = (Resolved tt, log (SValidate (QInteractionValid tunnel) false) s)
  ∧ createGame env tunnel invited' s
    = (Resolved tt, log (SValidate (QInteractionValid tunnel) false) s).
Proof. intros Hv. unfold_manager. by rewrite Hv. Qed.

(** C2 (amended): for every tunnel and optional invited member such that
    createGame resolves: when the interaction is valid, the registry is the
    old one with exactly one board appended, whose entities are the tunnel's
    author and then either the invited member, or an AI constructed in this
    invocation (its identity is the one the allocator hands out next, shared
    with no entity of a registered board) whose difficulty is the level the
    configured name denotes, and the default when no difficulty is
    configured, when the configured name is the empty string, or when the
    name denotes no level; when the interaction is not valid, the registry is
    unchanged. *)
Theorem createGame_registers_board (tunnel : MessagingTunnel)
    (invited : option GuildMember) (s s' : State) :
  createGame env tunnel invited s = (Resolved tt, s') →
  (isInteractionValid env s tunnel = true →
   ∃ g, gameboards s' = gameboards s ++ [g]
     ∧ length (gameboards s') = S (length (gameboards s))
     ∧ match invited with
       | Some m => entities g = [EMember (author tunnel); EMember m]
       | None =>
           ∃ a, entities g = [EMember (author tunnel); EAI a]
             ∧ ai_oid a = next_oid s
             ∧ (heap_wf s → ∀ g', g' ∈ gameboards s → EAI a ∉ entities g')
             ∧ (aiDifficulty (configuration env) = None →
                ai_difficulty a = AI_default_difficulty env)
             ∧ (aiDifficulty (configuration env) = Some "" →
                ai_difficulty a = AI_default_difficulty env)
             ∧ (∀ name, aiDifficulty (configuration env) = Some name →
                name ≠ "" →
                ai_difficulty a
                = default (AI_default_difficulty env)
                          (AIDifficultyLevel env name))
       end)
  ∧ (isInteractionValid env s tunnel = false →
     gameboards s' = gameboards s).
Proof.
  intros Hrun. split; intros Hv; unfold_manager; simpl in Hrun;
    rewrite Hv in Hrun; [|by simplify_eq/=].
  destruct invited as [m|]; repeat case_match; simplify_eq/=.
  all: eexists; split; [reflexivity|]; split; [rewrite length_app; simpl; lia|].
  all: try reflexivity.
  all: eexists; split_and!; [reflexivity|reflexivity| | | |].
  all: try (intros Hwf g' Hg' Ha; destruct (Hwf g' Hg') as [_ Hai];
            specialize (Hai _ Ha); simpl in Hai; lia).
  all: try (intros; simplify_eq; done).
  all: try (intros name' ? Hne; simplify_eq;
            unfold truthy in *;
            try (rewrite bool_decide_true in * by done);
            try done).
Qed.







(** C3: for every createGame invocation in which the newGame notification
    is emitted and one of its listeners throws, the promise is rejected with
    the thrown error and the registry is the one of the initial state; through
    handleInvitation the rejection carries the message of the error, or
    'game.in-progress' when the error has no message, and the registry is
    again unchanged. *)
Theorem createGame_veto_registers_nothing (tunnel : MessagingTunnel)
    (invited : option GuildMember) (players : list Entity) (err : Thrown)
    (s : State) :
  SEmit (NewGame players) ∈ steps_of (createGame env tunnel invited) s →
  listeners env (NewGame players) = Some err →
  (fst (createGame env tunnel invited s) = Rejected err
   ∧ gameboards (snd (createGame env tunnel invited s)) = gameboards s)
  ∧ (invited = None →
     fst (handleInvitation env tunnel None s)
     = Rejected (ThrownString (default "game.in-progress" (message_of err)))
     ∧ gameboards (snd (handleInvitation env tunnel None s)) = gameboards s).
Proof.
  intros Hemit Hveto.
  assert (Hrun : fst (createGame env tunnel invited s) = Rejected err
                 ∧ gameboards (snd (createGame env tunnel invited s))
                   = gameboards s).
  { revert Hemit. run_paths; read_steps; intros Hemit; elem_cases Hemit; done. }
  split; [done|]. intros ->. unfold handleInvitation, catch.
  destruct (createGame env tunnel None s) as [[[]|err'] s'] eqn:Hcg;
    destruct Hrun as [Hout Hreg]; simplify_eq/=. done.
Qed.

(** C10: in createGame the append precedes the awaited replyWith.  For
    every invocation in which the newGame notification is emitted and
    accepted, the board is appended and the reply awaited right after; when
    that replyWith rejects, or resolves and the attachTo after it rejects, the
    promise is rejected with the same error (when both resolve, it resolves),
    and in every case the new board is at the end of the registry: nothing
    rolls the append back.  A rejected invocation that made no append leaves
    the registry as it was. *)
Theorem createGame_rejection_keeps_append (tunnel : MessagingTunnel)
    (invited : option GuildMember) (s : State) :
  (∀ players,
     SEmit (NewGame players) ∈ steps_of (createGame env tunnel invited) s →
     listeners env (NewGame players) = None →
     ∃ g pre post,
       entities g = players
       ∧ steps_of (createGame env tunnel invited) s
         = pre ++ SPush g :: SAwait (CReplyWith tunnel (BoardContent g)) :: post
       ∧ gameboards (snd (createGame env tunnel invited s))
         = gameboards s ++ [g]
       ∧ (∀ err, settled (replyWith env tunnel (BoardContent g)) = inl err →
            fst (createGame env tunnel invited s) = Rejected err
            ∧ post = [])
       ∧ (∀ message err,
            settled (replyWith env tunnel (BoardContent g)) = inr message →
            settled (board_attachTo env g message) = inl err →
            fst (createGame env tunnel invited s) = Rejected err
            ∧ post = [SAwait (CBoardAttachTo g message)])
       ∧ (∀ message done,
            settled (replyWith env tunnel (BoardContent g)) = inr message →
            settled (board_attachTo env g message) = inr done →
            fst (createGame env tunnel invited s) = Resolved tt
            ∧ post = [SAwait (CBoardAttachTo g message)]))
  ∧ (∀ err,
       fst (createGame env tunnel invited s) = Rejected err →
       (∀ g, SPush g ∉ steps_of (createGame env tunnel invited) s) →
       gameboards (snd (createGame env tunnel invited s)) = gameboards s).
Proof.
  split.
  - intros players Hemit Hquiet. revert Hemit.
    run_paths; read_steps; intros Hemit; elem_cases Hemit.
    all: repeat match goal with u : unit |- _ => destruct u end.
    all: first
      [ solve [eexists _, [_; _; _; _], _;
               split_and!; [| |reflexivity| | |];
               [reflexivity|reflexivity|..];
               intros; split; congruence]
      | solve [eexists _, [_; _; _; _; _], _;
               split_and!; [| |reflexivity| | |];
               [reflexivity|reflexivity|..];
               intros; split; congruence] ].
  - intros err Hrej. revert Hrej.
    run_paths; read_steps; intros Hrej Hnopush; try done.
    all: exfalso; eapply Hnopush; find_elem.
Qed.

(** C6 (amended): for every requestDuel invocation that resolves: when
    the interaction is valid, if the configured cooldown is greater than 0,
    the cooldown map is the old one with the inviter's id set to
    Date.now() + cooldown * 1000, computed in the arithmetic of numbers at
    the time the invocation finished (30 seconds give now + 30000), whatever
    the invited member does later, and if the cooldown is unset or the test
    cooldown > 0 is false (zero, negative, NaN), the cooldown map is
    unchanged; when the interaction is not valid, the cooldown map is
    unchanged. *)
Theorem requestDuel_records_cooldown (tunnel : MessagingTunnel)
    (invited : GuildMember) (s s' : State) :
  requestDuel env tunnel invited s = (Resolved tt, s') →
  (isInteractionValid env s tunnel = true →
   (∀ cooldown, requestCooldownTime (configuration env) = Some cooldown →
      number_lt number_zero cooldown = true →
      memberCooldownEndTimes s'
      = <[member_id (author tunnel) :=
            number_add (number_of_Z (clock s'))
                       (number_mul cooldown (number_of_Z 1000))]>
          (memberCooldownEndTimes s))
   ∧ (requestCooldownTime (configuration env) = Some (number_of_Z 30) →
      memberCooldownEndTimes s' !! member_id (author tunnel)
      = Some (number_add (number_of_Z (clock s')) (number_of_Z 30000)))
   ∧ ((requestCooldownTime (configuration env) = None
       ∨ ∃ cooldown, requestCooldownTime (configuration env) = Some cooldown
                     ∧ number_lt number_zero cooldown = false) →
      memberCooldownEndTimes s' = memberCooldownEndTimes s))
  ∧ (isInteractionValid env s tunnel = false →
     memberCooldownEndTimes s' = memberCooldownEndTimes s).
Proof.
  intros Hrun. split; intros Hv; unfold_manager; simpl in Hrun;
    rewrite Hv in Hrun; [|by simplify_eq/=].
  destruct (requestCooldownTime (configuration env)) as [cd|] eqn:Hcd;
    simpl in Hrun; repeat case_match; simplify_eq/=.
  all: split_and!.
  all: try (intros cooldown ? Hpos; simplify_eq; solve [reflexivity|congruence]).
  all: try (intros ?; simplify_eq; solve [apply lookup_insert_eq|done]).
  all: try (intros [?|(cooldown & ? & Hle)]; simplify_eq;
            solve [reflexivity|congruence]).
Qed.

(** C8 (amended): for every invitation that names an invited member: if
    the invited member is a bot account, processInvitation rejects with
    'duel.no-bot', whatever its user id and its permissions; if the invited
    member is not a bot and has the inviter's user id or lacks the ViewChannel
    permission in the tunnel's channel, it rejects with 'duel.unknown-user';
    in these cases no step is taken and the state is untouched: no duel
    request and no game is created. *)
Theorem processInvitation_rejections (tunnel : MessagingTunnel)
    (inviter invited : GuildMember) (s : State) :
  (user_bot (member_user invited) = true →
   processInvitation env tunnel inviter (Some invited) s
   = (Rejected (ThrownString "duel.no-bot"), s))
  ∧ (user_bot (member_user invited) = false →
     user_id (member_user inviter) = user_id (member_user invited)
     ∨ ViewChannel ∉ permissionsIn env invited (channel tunnel) →
     processInvitation env tunnel inviter (Some invited) s
     = (Rejected (ThrownString "duel.unknown-user"), s)).
Proof.
  split.
  - intros Hbot. unfold processInvitation, bind, reject. by rewrite Hbot.
  - intros Hbot Hwho. unfold processInvitation, bind, reject, has.
    rewrite Hbot. simpl.
    destruct Hwho as [Hid|Hview].
    + by rewrite bool_decide_true by done.
    + rewrite (bool_decide_false (ViewChannel ∈ _)) by done.
      by rewrite orb_true_r.
Qed.

End EntryPoints.

(** ** GameStateValidator *)

(** C5: for every member that is a participant of some entry of the
    registry, isNewGamePossible is false for every request that names the
    member as the tunnel's author or as the invited member, whatever the
    tunnel and its channel. *)
Theorem isNewGamePossible_rejects_participants (registry : list GameBoard)
    (g : GameBoard) (m : GuildMember) (tunnel : MessagingTunnel)
    (invited : option GuildMember) :
  g ∈ registry →
  EMember m ∈ entities g →
  author tunnel = m ∨ invited = Some m →
  GameStateValidator.isNewGamePossible registry tunnel invited = false.
Proof.
  intros Hg Hm Hnamed. unfold GameStateValidator.isNewGamePossible.
  apply negb_false_iff, existsb_exists. exists g.
  split; [by apply list_elem_of_In|].
  apply orb_true_iff. unfold GameStateValidator.participates.
  destruct Hnamed as [->| ->]; [left|right]; simpl; by apply bool_decide_eq_true.
Qed.

(** ** The entry points on the sample objects *)

(** A complete run of createGame against the AI: the two validator reads,
    the constructions, the notification and the append, and only then the two
    suspension points. *)
Example createGame_friendly_steps :
  steps_of (createGame Sample.friendly Sample.tunnel_alice None)
           (Sample.state [Sample.board_carol_ai])
  = let ai := {| ai_oid := 10; ai_difficulty := 3 |} in
    let board := {| board_oid := 11;
                    board_tunnel := Sample.tunnel_alice;
                    entities := [EMember Sample.alice; EAI ai];
                    board_configuration := Sample.config |} in
    [SValidate (QInteractionValid Sample.tunnel_alice) true;
     SValidate (QNewGamePossible Sample.tunnel_alice None) true;
     SNewAI ai;
     SNewGameBoard board;
     SEmit (NewGame [EMember Sample.alice; EAI ai]);
     SPush board;
     SAwait (CReplyWith Sample.tunnel_alice (BoardContent board));
     SAwait (CBoardAttachTo board Sample.sent)].
Proof. reflexivity. Qed.

(** A complete run of requestDuel: the cooldown is recorded after the two
    suspension points. *)
Example requestDuel_friendly_steps :
  steps_of (requestDuel Sample.friendly Sample.tunnel_alice Sample.bob)
           (Sample.state [])
  = let duel := {| duel_oid := 10;
                   duel_tunnel := Sample.tunnel_alice;
                   duel_invited := Sample.bob;
                   duel_expireTime := Some 60%Z;
                   duel_useReactions := Some true;
                   duel_embedColor := None |} in
    [SValidate (QInteractionValid Sample.tunnel_alice) true;
     SValidate (QNewGamePossible Sample.tunnel_alice (Some Sample.bob)) true;
     SNewDuelRequest duel;
     SAwait (CReplyWith Sample.tunnel_alice (DuelContent duel));
     SAwait (CDuelAttachTo duel Sample.sent);
     SCooldownSet "1001" (number_of_Z 1700000030200)].
Proof. reflexivity. Qed.

(** Concrete scenario of the spec: alice already plays; her createGame
    against the AI is rejected before any registry mutation. *)
Example createGame_participant_rejected :
  createGame Sample.friendly Sample.tunnel_alice None
             (Sample.state [Sample.board_alice_bob])
  = (Rejected ThrownUndefined,
     log (SValidate (QNewGamePossible Sample.tunnel_alice None) false)
         (log (SValidate (QInteractionValid Sample.tunnel_alice) true)
              (Sample.state [Sample.board_alice_bob]))).
Proof. reflexivity. Qed.

(** C2, witness: alice starts a game against the AI, configured "Hard". *)
Lemma createGame_registers_board_witness :
  ∃ g, gameboards (snd (createGame Sample.friendly Sample.tunnel_alice None
                          (Sample.state [Sample.board_carol_ai])))
       = [Sample.board_carol_ai; g]
     ∧ entities g
       = [EMember Sample.alice; EAI {| ai_oid := 10; ai_difficulty := 3 |}].
Proof.
  destruct (proj1 (createGame_registers_board Sample.friendly
              Sample.tunnel_alice None
              (Sample.state [Sample.board_carol_ai])
              (snd (createGame Sample.friendly Sample.tunnel_alice None
                      (Sample.state [Sample.board_carol_ai])))
              eq_refl) eq_refl)
    as (g & Hreg & _ & a & Hents & Hoid & _ & _ & _ & Hlevel).
  exists g. split; [exact Hreg|].
  rewrite Hents. destruct a as [oid level]. simpl in *.
  rewrite Hoid, (Hlevel "Hard" eq_refl) by discriminate. reflexivity.
Defined.

(** C2, counterexample: the interaction is not valid; createGame resolves
    and the registry has not grown. *)
Lemma createGame_resolves_without_board :
  fst (createGame Sample.stale Sample.tunnel_alice None (Sample.state []))
  = Resolved tt
  ∧ gameboards (snd (createGame Sample.stale Sample.tunnel_alice None
                       (Sample.state []))) = []
  ∧ length (gameboards (snd (createGame Sample.stale Sample.tunnel_alice None
                               (Sample.state []))))
    ≠ S (length (gameboards (Sample.state []))).
Proof. split_and!; [reflexivity..|discriminate]. Qed.

(** C3, witness: a listener vetoes alice's game against the AI. *)
Lemma createGame_veto_registers_nothing_witness :
  fst (handleInvitation Sample.vetoing Sample.tunnel_alice None
         (Sample.state [Sample.board_carol_ai]))
  = Rejected (ThrownString "tournament.closed")
  ∧ gameboards (snd (handleInvitation Sample.vetoing Sample.tunnel_alice None
                       (Sample.state [Sample.board_carol_ai])))
    = [Sample.board_carol_ai].
Proof.
  refine (proj2 (createGame_veto_registers_nothing Sample.vetoing
            Sample.tunnel_alice None
            [EMember Sample.alice; EAI {| ai_oid := 10; ai_difficulty := 3 |}]
            (ThrownError (Some "tournament.closed"))
            (Sample.state [Sample.board_carol_ai]) _ _) eq_refl).
  - vm_compute. find_elem.
  - reflexivity.
Defined.

(** C5, witness: bob plays in the lobby; carol cannot invite him from the
    arena. *)
Lemma isNewGamePossible_rejects_participants_witness :
  GameStateValidator.isNewGamePossible [Sample.board_alice_bob]
    Sample.tunnel_carol (Some Sample.bob) = false.
Proof.
  apply (isNewGamePossible_rejects_participants [Sample.board_alice_bob]
           Sample.board_alice_bob Sample.bob Sample.tunnel_carol
           (Some Sample.bob)).
  - simpl. left.
  - simpl. right. left.
  - right. reflexivity.
Defined.

(** C6, witness: concrete scenario of the spec; the cooldown is 30 seconds,
    the reply takes 120 ms and attaching takes 80 ms. *)
Lemma requestDuel_records_cooldown_witness :
  memberCooldownEndTimes
    (snd (requestDuel Sample.friendly Sample.tunnel_alice Sample.bob
            (Sample.state []))) !! "1001"
  = Some (number_of_Z (1700000000200 + 30000)).
Proof.
  refine (eq_trans
    (proj1 (proj2 (proj1 (requestDuel_records_cooldown Sample.friendly
       Sample.tunnel_alice Sample.bob (Sample.state [])
       (snd (requestDuel Sample.friendly Sample.tunnel_alice Sample.bob
               (Sample.state []))) _) _)) _) _).
  - reflexivity.
  - reflexivity.
  - reflexivity.
  - vm_compute. reflexivity.
Defined.

(** C6, counterexample: the interaction is not valid and a cooldown of 30
    seconds is configured; requestDuel resolves and no end time is recorded
    for alice. *)
Lemma requestDuel_resolves_without_cooldown :
  requestCooldownTime (configuration Sample.stale) = Some (number_of_Z 30)
  ∧ fst (requestDuel Sample.stale Sample.tunnel_alice Sample.bob
           (Sample.state [])) = Resolved tt
  ∧ memberCooldownEndTimes
      (snd (requestDuel Sample.stale Sample.tunnel_alice Sample.bob
              (Sample.state []))) !! member_id Sample.alice = None.
Proof. split_and!; reflexivity. Qed.

(** C7, witness. *)
Lemma invalid_interaction_resolves_silently_witness :
  requestDuel Sample.stale Sample.tunnel_alice Sample.bob (Sample.state [])
  = (Resolved tt,
     log (SValidate (QInteractionValid Sample.tunnel_alice) false)
         (Sample.state []))
  ∧ createGame Sample.stale Sample.tunnel_alice None (Sample.state [])
    = (Resolved tt,
       log (SValidate (QInteractionValid Sample.tunnel_alice) false)
           (Sample.state [])).
Proof.
  apply (invalid_interaction_resolves_silently Sample.stale
           Sample.tunnel_alice Sample.bob None (Sample.state [])).
  reflexivity.
Defined.

(** C7, counterexample: isInteractionValid is false, and the promises of
    requestDuel and of createGame are resolved, not rejected. *)
Lemma invalid_interaction_not_rejected :
  isInteractionValid Sample.stale (Sample.state []) Sample.tunnel_alice = false
  ∧ fst (requestDuel Sample.stale Sample.tunnel_alice Sample.bob
           (Sample.state [])) = Resolved tt
  ∧ fst (createGame Sample.stale Sample.tunnel_alice (Some Sample.bob)
           (Sample.state [])) = Resolved tt.
Proof. split_and!; reflexivity. Qed.

(** C8, witness: alice invites a bot, herself, and carol who cannot see
    the lobby. *)
Lemma processInvitation_rejections_witness :
  fst (processInvitation Sample.friendly Sample.tunnel_alice Sample.alice
         (Some Sample.robot) (Sample.state []))
  = Rejected (ThrownString "duel.no-bot")
  ∧ fst (processInvitation Sample.friendly Sample.tunnel_alice Sample.alice
           (Some Sample.alice) (Sample.state []))
    = Rejected (ThrownString "duel.unknown-user")
  ∧ fst (processInvitation Sample.friendly Sample.tunnel_alice Sample.alice
           (Some Sample.carol) (Sample.state []))
    = Rejected (ThrownString "duel.unknown-user").
Proof.
  split_and!.
  - rewrite (proj1 (processInvitation_rejections Sample.friendly
               Sample.tunnel_alice Sample.alice Sample.robot (Sample.state [])));
      reflexivity.
  - rewrite (proj2 (processInvitation_rejections Sample.friendly
               Sample.tunnel_alice Sample.alice Sample.alice (Sample.state [])));
      [reflexivity|reflexivity|left; reflexivity].
  - rewrite (proj2 (processInvitation_rejections Sample.friendly
               Sample.tunnel_alice Sample.alice Sample.carol (Sample.state [])));
      [reflexivity|reflexivity|].
    right. simpl. intros [?|?%elem_of_nil]%elem_of_cons; [discriminate|done].
Defined.

(** C8, counterexample: the invited member is a bot that cannot view the
    lobby; processInvitation rejects with 'duel.no-bot', not with
    'duel.unknown-user'. *)
Lemma processInvitation_bot_without_view :
  user_bot (member_user Sample.robot) = true
  ∧ (ViewChannel
     ∉ permissionsIn Sample.secluded Sample.robot (channel Sample.tunnel_alice))
  ∧ processInvitation Sample.secluded Sample.tunnel_alice Sample.alice
      (Some Sample.robot) (Sample.state [])
    = (Rejected (ThrownString "duel.no-bot"), Sample.state [])
  ∧ fst (processInvitation Sample.secluded Sample.tunnel_alice Sample.alice
           (Some Sample.robot) (Sample.state []))
    ≠ Rejected (ThrownString "duel.unknown-user").
Proof.
  split_and!; [reflexivity| |reflexivity|discriminate].
  simpl. intros [?|?%elem_of_nil]%elem_of_cons; [discriminate|done].
Qed.

(** C10, witness: the reply to alice cannot be sent; createGame rejects and
    the new board stays in the registry. *)
Lemma createGame_rejection_keeps_append_witness :
  fst (createGame Sample.unreachable Sample.tunnel_alice (Some Sample.bob)
         (Sample.state [Sample.board_carol_ai]))
  = Rejected (ThrownError (Some "Missing Access"))
  ∧ ∃ g, entities g = [EMember Sample.alice; EMember Sample.bob]
       ∧ gameboards (snd (createGame Sample.unreachable Sample.tunnel_alice
                            (Some Sample.bob)
                            (Sample.state [Sample.board_carol_ai])))
         = [Sample.board_carol_ai; g].
Proof.
  destruct (proj1 (createGame_rejection_keeps_append Sample.unreachable
              Sample.tunnel_alice (Some Sample.bob)
              (Sample.state [Sample.board_carol_ai]))
              [EMember Sample.alice; EMember Sample.bob])
    as (g & pre & post & Hents & _ & Hreg & Hreply & _).
  - vm_compute. find_elem.
  - reflexivity.
  - split.
    + exact (proj1 (Hreply (ThrownError (Some "Missing Access")) eq_refl)).
    + exists g. split; [exact Hents|exact Hreg].
Defined.

(** * Further properties *)

(** ** Removing one element *)

Lemma splice_one_cases {A} (start : Z) (l : list A) :
  splice start 1 l = l
  ∨ ∃ l1 x l2, l = l1 ++ x :: l2 ∧ splice start 1 l = l1 ++ l2.
Proof.
  unfold splice.
  set (len := Z.of_nat (length l)).
  set (actualStart :=
         if (start <? 0)%Z then Z.max (len + start) 0 else Z.min start len).
  assert (Hrange : (0 ≤ actualStart ≤ len)%Z).
  { unfold actualStart, len. destruct (start <? 0)%Z eqn:Hneg; lia. }
  destruct (decide (actualStart = len)) as [Hend|Hin].
  - left. replace (Z.min (Z.max 1 0) (len - actualStart)) with 0%Z by lia.
    rewrite Z.add_0_r. apply take_drop.
  - right. replace (Z.min (Z.max 1 0) (len - actualStart)) with 1%Z by lia.
    replace (Z.to_nat (actualStart + 1)) with (S (Z.to_nat actualStart)) by lia.
    assert (Hlt : (Z.to_nat actualStart < length l)%nat) by (unfold len in *; lia).
    destruct (lookup_lt_is_Some_2 l _ Hlt) as [x Hx].
    exists (take (Z.to_nat actualStart) l), x, (drop (S (Z.to_nat actualStart)) l).
    split; [|done]. symmetry. by apply take_drop_middle.
Qed.

(** ** The manager's methods *)

Section ManagerExtras.
Context (env : Collaborators).

Lemma endGame_registry (g : GameBoard) (w : WinnerArg) (s : State) :
  gameboards (snd (endGame env g w s)) = gameboards s
  ∨ gameboards (snd (endGame env g w s))
    = splice (indexOf g (gameboards s)) 1 (gameboards s).
Proof.
  unfold endGame, bind, emitEvent, ret, gameboards_indexOf, gameboards_splice.
  destruct w; simpl; repeat case_match; simplify_eq/=; auto.
Qed.

(** X4: whatever its outcome and its arguments, endGame leaves the
    cooldown map, the allocator and the clock as they were, and the registry
    is either unchanged or the old one without one of its entries: endGame
    never adds or reorders boards and never removes two. *)
Theorem endGame_frame (g : GameBoard) (w : WinnerArg) (s : State) :
  memberCooldownEndTimes (snd (endGame env g w s)) = memberCooldownEndTimes s
  ∧ next_oid (snd (endGame env g w s)) = next_oid s
  ∧ clock (snd (endGame env g w s)) = clock s
  ∧ (gameboards (snd (endGame env g w s)) = gameboards s
     ∨ ∃ l1 x l2, gameboards s = l1 ++ x :: l2
                  ∧ gameboards (snd (endGame env g w s)) = l1 ++ l2).
Proof.
  split_and!.
  1-3: unfold endGame, bind, emitEvent, ret, gameboards_indexOf,
         gameboards_splice; destruct w; simpl; repeat case_match;
         by simplify_eq/=.
  destruct (endGame_registry g w s) as [->| ->]; [by left|].
  apply splice_one_cases.
Qed.

(** X2: whatever its outcome, requestDuel leaves the registry as it was,
    changes no cooldown entry other than the one of the tunnel's author, and
    notifies no listener. *)
Theorem requestDuel_frame (tunnel : MessagingTunnel) (invited : GuildMember)
    (s : State) :
  gameboards (snd (requestDuel env tunnel invited s)) = gameboards s
  ∧ (∀ id, id ≠ member_id (author tunnel) →
       memberCooldownEndTimes (snd (requestDuel env tunnel invited s)) !! id
       = memberCooldownEndTimes s !! id)
  ∧ emitted (steps_of (requestDuel env tunnel invited) s) = [].
Proof.
  split_and!.
  - run_paths; done.
  - intros id Hid. run_paths; try done. by rewrite lookup_insert_ne.
  - run_paths; read_steps; done.
Qed.

(** X3: whatever its outcome, createGame leaves the cooldown map as it
    was; the registry is either unchanged or extended at its end by one board
    of this tunnel whose identity was allocated in this invocation; and the
    only notification it can emit is one newGame. *)
Theorem createGame_frame (tunnel : MessagingTunnel)
    (invited : option GuildMember) (s : State) :
  memberCooldownEndTimes (snd (createGame env tunnel invited s))
  = memberCooldownEndTimes s
  ∧ (gameboards (snd (createGame env tunnel invited s)) = gameboards s
     ∨ ∃ g, gameboards (snd (createGame env tunnel invited s))
            = gameboards s ++ [g]
          ∧ board_tunnel g = tunnel
          ∧ (next_oid s ≤ board_oid g
             < next_oid (snd (createGame env tunnel invited s)))%nat)
  ∧ (emitted (steps_of (createGame env tunnel invited) s) = []
     ∨ ∃ players, emitted (steps_of (createGame env tunnel invited) s)
                  = [NewGame players]).
Proof.
  split_and!.
  - run_paths; done.
  - run_paths; try (by left).
    all: right; eexists; split_and!; [reflexivity|reflexivity|simpl; lia..].
  - run_paths; read_steps; eauto.
Qed.

Lemma registry_wf_same (s s' : State) :
  gameboards s' = gameboards s → (next_oid s ≤ next_oid s')%nat →
  registry_wf s → registry_wf s'.
Proof.
  intros Hreg Hnext [Hheap Hnodup]. split; [|by rewrite Hreg].
  intros g Hg. rewrite Hreg in Hg. destruct (Hheap g Hg) as [Hg1 Hg2].
  split; [lia|]. intros a Ha. specialize (Hg2 a Ha). lia.
Qed.

Lemma registry_wf_push (s s' : State) (g : GameBoard) :
  gameboards s' = gameboards s ++ [g] →
  (next_oid s ≤ board_oid g < next_oid s')%nat →
  (∀ a, EAI a ∈ entities g → (ai_oid a < next_oid s')%nat) →
  registry_wf s → registry_wf s'.
Proof.
  intros Hreg Hoid Hais [Hheap Hnodup]. split.
  - intros g' Hg'. rewrite Hreg in Hg'.
    apply elem_of_app in Hg' as [Hg'|Hg'].
    + destruct (Hheap g' Hg') as [Hg1 Hg2]. split; [lia|].
      intros a Ha. specialize (Hg2 a Ha). lia.
    + apply list_elem_of_singleton in Hg' as ->. split; [lia|done].
  - rewrite Hreg, fmap_app. apply NoDup_app. split_and!; [done| |].
    + intros oid Hin Hnew. apply list_elem_of_singleton in Hnew as ->.
      apply list_elem_of_fmap in Hin as (g' & Heq & Hg').
      destruct (Hheap g' Hg') as [Hlt _]. lia.
    + apply NoDup_singleton.
Qed.

Lemma registry_wf_remove (s s' : State) (l1 l2 : list GameBoard) (x : GameBoard) :
  gameboards s = l1 ++ x :: l2 → gameboards s' = l1 ++ l2 →
  next_oid s' = next_oid s →
  registry_wf s → registry_wf s'.
Proof.
  intros Hreg Hreg' Hnext [Hheap Hnodup]. split.
  - intros g Hg. rewrite Hnext. apply Hheap. rewrite Hreg.
    rewrite Hreg' in Hg. apply elem_of_app in Hg as [Hg|Hg];
      apply elem_of_app; [by left|right; by apply list_elem_of_further].
  - rewrite Hreg in Hnodup. rewrite Hreg'.
    rewrite fmap_app in *. rewrite fmap_cons in Hnodup.
    apply NoDup_app in Hnodup as (Hn1 & Hdisj & Hn2).
    apply NoDup_cons in Hn2 as [_ Hn2].
    apply NoDup_app. split_and!; [done| |done].
    intros oid Hin1 Hin2. apply (Hdisj oid Hin1). by apply list_elem_of_further.
Qed.

(** X5: the registry invariant (every registered board and every AI of a
    registered board is an allocated object, and registered boards have
    pairwise distinct identities) is kept by requestDuel, createGame and
    endGame, whatever their outcome. *)
Theorem registry_wf_preserved (tunnel : MessagingTunnel)
    (invited : GuildMember) (invited' : option GuildMember)
    (g : GameBoard) (w : WinnerArg) (s : State) :
  registry_wf s →
  registry_wf (snd (requestDuel env tunnel invited s))
  ∧ registry_wf (snd (createGame env tunnel invited' s))
  ∧ registry_wf (snd (endGame env g w s)).
Proof.
  intros Hwf. split_and!.
  - apply (registry_wf_same s); [|run_paths; lia|done].
    apply requestDuel_frame.
  - run_paths.
    all: try (apply (registry_wf_same s); [done|simpl; lia|done]).
    all: eapply (registry_wf_push s); [reflexivity|simpl; lia| |done].
    all: simpl; intros a Ha; elem_cases Ha; simpl; lia.
  - destruct (endGame_frame g w s) as (_ & Hnext & _ & [Hreg|Hreg]).
    + apply (registry_wf_same s); [done|lia|done].
    + destruct Hreg as (l1 & x & l2 & Hreg & Hreg').
      by apply (registry_wf_remove s _ l1 l2 x).
Qed.

Lemma endGame_quiet (g : GameBoard) (w : WinnerArg) (s : State) :
  Forall (fun e => listeners env e = None) (outcome_notifications g w) →
  fst (endGame env g w s) = Resolved tt
  ∧ gameboards (snd (endGame env g w s))
    = splice (indexOf g (gameboards s)) 1 (gameboards s).
Proof.
  intros Hquiet.
  destruct (outcome_notifications g w) as [|e [|e' evs]] eqn:Hw.
  - by destruct w; simplify_eq/=.
  - apply Forall_cons in Hquiet as [He _].
    by rewrite (endGame_emits_then_splices env g w e s).
  - destruct w; simplify_eq/=.
Qed.

Lemma splice_indexOf_at (g : GameBoard) (l1 l2 : list GameBoard) :
  g ∉ l1 → splice (indexOf g (l1 ++ g :: l2)) 1 (l1 ++ g :: l2) = l1 ++ l2.
Proof.
  intros Hg. unfold indexOf. rewrite indexOf_from_first by done.
  rewrite Z.add_0_l. apply splice_one_at.
Qed.

(** X6: when createGame has appended a board to a registry of allocated
    boards, ending that board (no listener of the outcome notification
    throwing) returns and gives back the registry createGame started from. *)
Theorem createGame_endGame_round_trip (tunnel : MessagingTunnel)
    (invited : option GuildMember) (g : GameBoard) (w : WinnerArg) (s : State) :
  heap_wf s →
  gameboards (snd (createGame env tunnel invited s)) = gameboards s ++ [g] →
  Forall (fun e => listeners env e = None) (outcome_notifications g w) →
  fst (endGame env g w (snd (createGame env tunnel invited s))) = Resolved tt
  ∧ gameboards (snd (endGame env g w (snd (createGame env tunnel invited s))))
    = gameboards s.
Proof.
  intros Hheap Hreg Hquiet.
  assert (Hfresh : g ∉ gameboards s).
  { destruct (createGame_frame tunnel invited s) as (_ & [Hsame|Hpush] & _).
    - rewrite Hsame in Hreg. apply (f_equal length) in Hreg.
      rewrite length_app in Hreg. simpl in Hreg. lia.
    - destruct Hpush as (g' & Hreg' & _ & Hoid). rewrite Hreg in Hreg'.
      apply app_inj_tail in Hreg' as [_ <-].
      intros Hin. destruct (Hheap g Hin) as [Hlt _]. lia. }
  destruct (endGame_quiet g w (snd (createGame env tunnel invited s)) Hquiet)
    as [Hret Hspl].
  split; [done|]. rewrite Hspl, Hreg.
  rewrite (splice_indexOf_at g (gameboards s) []) by done. apply app_nil_r.
Qed.

(** X7: in a duplicate-free registry, endGame of a registered board (no
    listener throwing) leaves a registry without that board; ending the same
    board a second time then removes the last of the remaining boards. *)
Theorem endGame_twice (g : GameBoard) (w1 w2 : WinnerArg)
    (l1 l2 : list GameBoard) (s : State) :
  gameboards s = l1 ++ g :: l2 → NoDup (gameboards s) →
  Forall (fun e => listeners env e = None) (outcome_notifications g w1) →
  Forall (fun e => listeners env e = None) (outcome_notifications g w2) →
  (g ∉ gameboards (snd (endGame env g w1 s)))
  ∧ gameboards (snd (endGame env g w1 s)) = l1 ++ l2
  ∧ gameboards (snd (endGame env g w2 (snd (endGame env g w1 s))))
    = removelast (l1 ++ l2).
Proof.
  intros Hreg Hnodup Hquiet1 Hquiet2. rewrite Hreg in Hnodup.
  apply NoDup_app in Hnodup as (_ & Hl1 & Hl2).
  apply NoDup_cons in Hl2 as [Hl2 _].
  assert (Hg1 : g ∉ l1).
  { intros Hin. apply (Hl1 g Hin). apply list_elem_of_here. }
  destruct (endGame_quiet g w1 s Hquiet1) as [_ Hfirst].
  rewrite Hreg, splice_indexOf_at in Hfirst by done.
  assert (Hgone : g ∉ l1 ++ l2).
  { intros [?|?]%elem_of_app; done. }
  split_and!; [by rewrite Hfirst|done|].
  destruct (endGame_quiet g w2 (snd (endGame env g w1 s)) Hquiet2)
    as [_ Hsecond].
  rewrite Hsecond, Hfirst. by apply splice_indexOf_unregistered.
Qed.

(** X1: on a valid interaction for which isNewGamePossible is false,
    requestDuel and createGame reject without a payload right after the two
    validator calls: nothing is constructed, emitted, sent or mutated; and
    handleInvitation turns that rejection into 'game.in-progress'. *)
Theorem conflict_rejected_before_construction (tunnel : MessagingTunnel)
    (invited : GuildMember) (invited' : option GuildMember) (s : State) :
  isInteractionValid env s tunnel = true →
  (isNewGamePossible env (log (SValidate (QInteractionValid tunnel) true) s)
     tunnel (Some invited) = false →
   requestDuel env tunnel invited s
   = (Rejected ThrownUndefined,
      log (SValidate (QNewGamePossible tunnel (Some invited)) false)
          (log (SValidate (QInteractionValid tunnel) true) s))
   ∧ fst (handleInvitation env tunnel (Some invited) s)
     = Rejected (ThrownString "game.in-progress"))
  ∧ (isNewGamePossible env (log (SValidate (QInteractionValid tunnel) true) s)
       tunnel invited' = false →
     createGame env tunnel invited' s
     = (Rejected ThrownUndefined,
        log (SValidate (QNewGamePossible tunnel invited') false)
            (log (SValidate (QInteractionValid tunnel) true) s))
     ∧ (invited' = None →
        fst (handleInvitation env tunnel None s)
        = Rejected (ThrownString "game.in-progress"))).
Proof.
  intros Hv. split; intros Hp.
  - assert (Hrun : requestDuel env tunnel invited s
                   = (Rejected ThrownUndefined,
                      log (SValidate (QNewGamePossible tunnel (Some invited)) false)
                          (log (SValidate (QInteractionValid tunnel) true) s))).
    { unfold_manager. rewrite Hv. simpl. by rewrite Hp. }
    split; [done|]. unfold handleInvitation, catch. by rewrite Hrun.
  - assert (Hrun : createGame env tunnel invited' s
                   = (Rejected ThrownUndefined,
                      log (SValidate (QNewGamePossible tunnel invited') false)
                          (log (SValidate (QInteractionValid tunnel) true) s))).
    { unfold_manager. rewrite Hv. simpl. by rewrite Hp. }
    split; [done|]. intros ->. unfold handleInvitation, catch. by rewrite Hrun.
Qed.

End ManagerExtras.

(** ** The command handlers *)

Section CommandExtras.
Context (env : Collaborators) (cenv : CommandCollaborators).

Lemma handleInvitation_state (tunnel : MessagingTunnel)
    (invited : option GuildMember) (s : State) :
  snd (handleInvitation env tunnel invited s)
  = snd (match invited with
         | Some m => requestDuel env tunnel m s
         | None => createGame env tunnel None s
         end).
Proof.
  unfold handleInvitation, catch, reject.
  destruct invited as [m|]; by repeat case_match.
Qed.

Lemma processInvitation_state (tunnel : MessagingTunnel)
    (inviter : GuildMember) (invited : option GuildMember) (s : State) :
  snd (processInvitation env tunnel inviter invited s) = s
  ∨ snd (processInvitation env tunnel inviter invited s)
    = snd (match invited with
           | Some m => requestDuel env tunnel m s
           | None => createGame env tunnel None s
           end).
Proof.
  rewrite <- handleInvitation_state.
  unfold processInvitation, bind, reject, ret.
  destruct invited as [m|]; repeat case_match; simplify_eq/=; auto.
Qed.

(** X8: every rejection of processInvitation carries a string:
    'duel.no-bot', 'duel.unknown-user', or, when the manager's method
    rejected, the message of its error and 'game.in-progress' when the error
    has none. *)
Theorem processInvitation_rejects_with_key (tunnel : MessagingTunnel)
    (inviter : GuildMember) (invited : option GuildMember) (s : State)
    (err : Thrown) :
  fst (processInvitation env tunnel inviter invited s) = Rejected err →
  ∃ key, err = ThrownString key
    ∧ (key = "duel.no-bot" ∨ key = "duel.unknown-user"
       ∨ ∃ cause,
           fst (match invited with
                | Some m => requestDuel env tunnel m s
                | None => createGame env tunnel None s
                end) = Rejected cause
           ∧ key = default "game.in-progress" (message_of cause)).
Proof.
  unfold processInvitation, handleInvitation, catch, bind, reject, ret.
  destruct invited as [m|]; intros Hrej;
    repeat case_match; simplify_eq/=; eauto 10.
  all: eexists; split; [reflexivity|]; right; right; eexists;
    split; [|reflexivity];
    by match goal with H : _ = (Rejected _, _) |- _ => rewrite H end.
Qed.

(** X9: an invitation that names a member never starts a game: the
    registry is unchanged and no notification is emitted; an invitation
    without a member never requests a duel: no DuelRequest is constructed and
    the cooldown map is unchanged. *)
Theorem processInvitation_separates_duels_and_games (tunnel : MessagingTunnel)
    (inviter : GuildMember) (s : State) :
  (∀ invited,
     gameboards (snd (processInvitation env tunnel inviter (Some invited) s))
     = gameboards s
     ∧ emitted (steps_of (processInvitation env tunnel inviter (Some invited)) s)
       = [])
  ∧ memberCooldownEndTimes (snd (processInvitation env tunnel inviter None s))
    = memberCooldownEndTimes s
  ∧ ∀ d, SNewDuelRequest d
         ∉ steps_of (processInvitation env tunnel inviter None) s.
Proof.
  split_and!.
  - intros invited.
    destruct (processInvitation_state tunnel inviter (Some invited) s)
      as [Hs|Hs]; unfold steps_of; rewrite Hs.
    + by rewrite drop_all.
    + destruct (requestDuel_frame env tunnel invited s) as (Hreg & _ & Hemit).
      done.
  - destruct (processInvitation_state tunnel inviter None s) as [Hs|Hs];
      rewrite Hs; [done|apply (createGame_frame env tunnel None s)].
  - intros d.
    destruct (processInvitation_state tunnel inviter None s) as [Hs|Hs];
      unfold steps_of; rewrite Hs.
    + rewrite drop_all. apply not_elem_of_nil.
    + clear Hs. run_paths; read_steps; intros Hin; elem_cases Hin.
Qed.


(** X10: handleMessage does nothing (it resolves, no reply, no call into
    the manager) for a message without a guild member, from a bot or outside
    a text-based channel, and, unless noTrigger is set, when the text command
    is unset, is the empty string, or is not a prefix of the content. *)
Theorem handleMessage_ignores (message : IncomingMessage) (noTrigger : bool)
    (c : CommandState) :
  incoming_member message = None
  ∨ user_bot (incoming_author message) = true
  ∨ incoming_channel_isTextBased message = false
  ∨ (noTrigger = false
     ∧ (textCommand (command_configuration cenv) = None
        ∨ textCommand (command_configuration cenv) = Some ""
        ∨ ∃ trigger, textCommand (command_configuration cenv) = Some trigger
            ∧ String.prefix trigger (incoming_content message) = false)) →
  handleMessage env cenv message noTrigger c = (Resolved tt, c).
Proof.
  unfold handleMessage, cm_ret.
  intros [Hm|[Hbot|[Htext|[-> Htrig]]]].
  - by rewrite Hm.
  - rewrite Hbot. by destruct (incoming_member message).
  - rewrite Htext, andb_false_r. by destruct (incoming_member message).
  - destruct (incoming_member message); [|done].
    destruct Htrig as [->|[->|(trigger & -> & ->)]];
      by rewrite ?andb_false_r.
Qed.

Lemma reply_error_run (tunnel : MessagingTunnel) (error : Thrown)
    (c : CommandState) :
  reply_error cenv tunnel error c
  = (match settled (replyWith_content cenv tunnel (localize cenv error) true) with
     | inr _ => Resolved tt
     | inl err => Rejected err
     end,
     {| manager_state :=
          tick (elapsed (replyWith_content cenv tunnel (localize cenv error) true))
               (manager_state c);
        command_trace :=
          command_trace c ++ [CReplyError tunnel (localize cenv error) true] |}).
Proof.
  unfold reply_error, cm_bind, cm_await, cm_ret.
  by destruct (settled (replyWith_content cenv tunnel (localize cenv error) true)).
Qed.

(** X11: in every run, handleMessage sends nothing but at most one error
    reply, with the direct flag, and it rejects exactly when that reply is
    sent and fails, with the reply's error; it resolves otherwise.  In every
    run on an interaction, handleInteraction either does nothing, or fetches
    the member and then sends at most one error reply, with the direct flag;
    it rejects exactly when the fetch fails (nothing is sent then) or when the
    error reply is sent and fails, with that error, and resolves otherwise. *)
Theorem handlers_reject_only_when_io_fails (c : CommandState) :
  (∀ message noTrigger,
     (command_trace (snd (handleMessage env cenv message noTrigger c))
      = command_trace c
      ∧ fst (handleMessage env cenv message noTrigger c) = Resolved tt)
     ∨ ∃ content,
         command_trace (snd (handleMessage env cenv message noTrigger c))
         = command_trace c
           ++ [CReplyError (TextMessagingTunnel cenv message) content true]
         ∧ fst (handleMessage env cenv message noTrigger c)
           = match settled (replyWith_content cenv
                              (TextMessagingTunnel cenv message) content true)
             with
             | inr _ => Resolved tt
             | inl err => Rejected err
             end)
  ∧ (∀ interaction noTrigger,
       (command_trace
          (snd (handleInteraction env cenv (Some interaction) noTrigger c))
        = command_trace c
        ∧ fst (handleInteraction env cenv (Some interaction) noTrigger c)
          = Resolved tt)
       ∨ (command_trace
            (snd (handleInteraction env cenv (Some interaction) noTrigger c))
          = command_trace c ++ [CFetch (interaction_member interaction)]
          ∧ fst (handleInteraction env cenv (Some interaction) noTrigger c)
            = match settled (member_fetch cenv (interaction_member interaction))
              with
              | inr _ => Resolved tt
              | inl err => Rejected err
              end)
       ∨ ∃ content,
           command_trace
             (snd (handleInteraction env cenv (Some interaction) noTrigger c))
           = command_trace c
             ++ [CFetch (interaction_member interaction);
                 CReplyError (CommandInteractionMessagingTunnel cenv interaction)
                   content true]
           ∧ fst (handleInteraction env cenv (Some interaction) noTrigger c)
             = match settled (replyWith_content cenv
                                (CommandInteractionMessagingTunnel cenv
                                   interaction) content true)
               with
               | inr _ => Resolved tt
               | inl err => Rejected err
               end).
Proof.
  split.
  - intros message noTrigger.
    unfold handleMessage, cm_catch, cm_lift, cm_ret.
    repeat case_match; simplify_eq/=.
    all: repeat match goal with u : unit |- _ => destruct u end.
    all: try (by left).
    all: right; rewrite reply_error_run; simpl; eauto.
  - intros interaction noTrigger.
    unfold handleInteraction, cm_bind, cm_catch, cm_lift, cm_await, cm_ret.
    repeat case_match; simplify_eq/=.
    all: repeat match goal with u : unit |- _ => destruct u end.
    all: try (by left).
    all: try (right; left; by split).
    all: right; right; rewrite reply_error_run; simpl;
      rewrite <- app_assoc; eauto.
Qed.

Lemma message_guard_passes (message : IncomingMessage) (noTrigger : bool) :
  user_bot (incoming_author message) = false →
  incoming_channel_isTextBased message = true →
  noTrigger = true
  ∨ (∃ trigger, textCommand (command_configuration cenv) = Some trigger
       ∧ trigger ≠ ""
       ∧ String.prefix trigger (incoming_content message) = true) →
  negb (user_bot (incoming_author message))
  && incoming_channel_isTextBased message
  && (noTrigger
      || match textCommand (command_configuration cenv) with
         | Some trigger =>
             truthy trigger
             && String.prefix trigger (incoming_content message)
         | None => false
         end) = true.
Proof.
  intros Hbot Htext Htrig. rewrite Hbot, Htext. simpl.
  destruct Htrig as [->|(trigger & -> & Hne & ->)]; [done|].
  unfold truthy. rewrite bool_decide_true by done. apply orb_true_r.
Qed.

(** X12: a triggering message whose first mentioned member is a bot, has
    the author's user id or cannot view the tunnel's channel is answered with
    exactly one direct reply, the localized 'duel.no-bot' for a bot and
    'duel.unknown-user' otherwise; the registry, the cooldown map and the
    manager's trace are untouched. *)
Theorem handleMessage_answers_invalid_invitee (message : IncomingMessage)
    (noTrigger : bool) (member invited : GuildMember)
    (others : list GuildMember) (c : CommandState) :
  incoming_member message = Some member →
  user_bot (incoming_author message) = false →
  incoming_channel_isTextBased message = true →
  noTrigger = true
  ∨ (∃ trigger, textCommand (command_configuration cenv) = Some trigger
       ∧ trigger ≠ ""
       ∧ String.prefix trigger (incoming_content message) = true) →
  incoming_mentions_members message = Some (invited :: others) →
  user_bot (member_user invited) = true
  ∨ user_id (member_user member) = user_id (member_user invited)
  ∨ ViewChannel
    ∉ permissionsIn env invited (channel (TextMessagingTunnel cenv message)) →
  ∃ key,
    key = (if user_bot (member_user invited)
           then "duel.no-bot" else "duel.unknown-user")
    ∧ handleMessage env cenv message noTrigger c
      = reply_error cenv (TextMessagingTunnel cenv message) (ThrownString key) c
    ∧ command_trace (snd (handleMessage env cenv message noTrigger c))
      = command_trace c
        ++ [CReplyError (TextMessagingTunnel cenv message)
              (localize cenv (ThrownString key)) true]
    ∧ gameboards (manager_state (snd (handleMessage env cenv message noTrigger c)))
      = gameboards (manager_state c)
    ∧ memberCooldownEndTimes
        (manager_state (snd (handleMessage env cenv message noTrigger c)))
      = memberCooldownEndTimes (manager_state c)
    ∧ trace (manager_state (snd (handleMessage env cenv message noTrigger c)))
      = trace (manager_state c).
Proof.
  intros Hm Hbot Htext Htrig Hmention Hinvalid.
  pose proof (message_guard_passes message noTrigger Hbot Htext Htrig)
    as Hguard.
  eexists. split; [reflexivity|].
  assert (Hrun : handleMessage env cenv message noTrigger c
    = reply_error cenv (TextMessagingTunnel cenv message)
        (ThrownString (if user_bot (member_user invited)
                       then "duel.no-bot" else "duel.unknown-user")) c).
  { unfold handleMessage. rewrite Hm, Hguard, Hmention. simpl.
    unfold cm_catch, cm_lift, processInvitation, bind, reject, has.
    destruct (user_bot (member_user invited)) eqn:Hib; simpl.
    - by destruct c.
    - destruct Hinvalid as [?|[Hid|Hview]]; [done| |].
      + rewrite bool_decide_true by done. simpl. by destruct c.
      + rewrite (bool_decide_false (ViewChannel ∈ _)) by done.
        rewrite orb_true_r. by destruct c. }
  rewrite Hrun, reply_error_run. done.
Qed.

(** X13: a triggering message that mentions nobody, on a valid
    interaction, when handled without an error reply, has appended exactly
    one board to the registry, between the tunnel's author and an AI
    constructed for it. *)
Theorem handleMessage_starts_game_against_AI (message : IncomingMessage)
    (noTrigger : bool) (member : GuildMember) (c : CommandState) :
  incoming_member message = Some member →
  user_bot (incoming_author message) = false →
  incoming_channel_isTextBased message = true →
  noTrigger = true
  ∨ (∃ trigger, textCommand (command_configuration cenv) = Some trigger
       ∧ trigger ≠ ""
       ∧ String.prefix trigger (incoming_content message) = true) →
  (incoming_mentions_members message = None
   ∨ incoming_mentions_members message = Some []) →
  isInteractionValid env (manager_state c) (TextMessagingTunnel cenv message)
  = true →
  fst (handleMessage env cenv message noTrigger c) = Resolved tt →
  command_trace (snd (handleMessage env cenv message noTrigger c))
  = command_trace c →
  ∃ g a,
    gameboards (manager_state (snd (handleMessage env cenv message noTrigger c)))
    = gameboards (manager_state c) ++ [g]
    ∧ entities g
      = [EMember (author (TextMessagingTunnel cenv message)); EAI a]
    ∧ ai_oid a = next_oid (manager_state c).
Proof.
  intros Hm Hbot Htext Htrig Hnone Hvalid.
  pose proof (message_guard_passes message noTrigger Hbot Htext Htrig)
    as Hguard.
  assert (Hhead : match incoming_mentions_members message with
                  | Some members => head members
                  | None => None
                  end = None) by (by destruct Hnone as [->| ->]).
  unfold handleMessage. rewrite Hm, Hhead, Hguard.
  unfold cm_catch, cm_lift, processInvitation, handleInvitation, catch,
    bind, ret, reject. simpl.
  destruct (createGame env (TextMessagingTunnel cenv message) None
              (manager_state c)) as [[[]|err] s'] eqn:Hcg; simpl.
  - intros _ _. revert Hcg. unfold_manager. simpl. rewrite Hvalid.
    intros Hcg. repeat case_match; simplify_eq/=; eauto.
  - rewrite reply_error_run. simpl. intros _ Htrace.
    apply (f_equal length) in Htrace. rewrite length_app in Htrace.
    simpl in Htrace. lia.
Qed.

(** X16: an interaction that passes the checks and whose opponent option
    (named by commandOptionName, 'opponent' when unset) holds a member, on a
    valid interaction, when handled without an error reply, has constructed a
    DuelRequest for that member on the interaction's tunnel and has left the
    registry unchanged. *)
Theorem handleInteraction_requests_duel (i : Interaction) (noTrigger : bool)
    (member invited : GuildMember) (c : CommandState) :
  interaction_isChatInputCommand i = true →
  interaction_inCachedGuild i = true →
  interaction_channel_isTextBased i = Some true →
  noTrigger = true
  ∨ command (command_configuration cenv) = Some (interaction_commandName i) →
  settled (member_fetch cenv (interaction_member i)) = inr member →
  interaction_options_getMember i
    (default "opponent" (commandOptionName (command_configuration cenv)))
  = Some invited →
  isInteractionValid env
    (tick (elapsed (member_fetch cenv (interaction_member i))) (manager_state c))
    (CommandInteractionMessagingTunnel cenv i) = true →
  fst (handleInteraction env cenv (Some i) noTrigger c) = Resolved tt →
  command_trace (snd (handleInteraction env cenv (Some i) noTrigger c))
  = command_trace c ++ [CFetch (interaction_member i)] →
  gameboards (manager_state (snd (handleInteraction env cenv (Some i) noTrigger c)))
  = gameboards (manager_state c)
  ∧ ∃ d, duel_invited d = invited
       ∧ duel_tunnel d = CommandInteractionMessagingTunnel cenv i
       ∧ SNewDuelRequest d
         ∈ trace (manager_state
                    (snd (handleInteraction env cenv (Some i) noTrigger c))).
Proof.
  intros Hchat Hguild Htext Htrig Hfetch Hopt Hvalid.
  unfold handleInteraction, cm_bind, cm_await.
  rewrite Hchat, Hguild, Htext, Hfetch, Hopt. simpl.
  assert (Hguard : noTrigger
                   || bool_decide (Some (interaction_commandName i)
                                   = command (command_configuration cenv))
                   = true).
  { destruct Htrig as [->|Hcmd]; [done|].
    rewrite bool_decide_true by done. apply orb_true_r. }
  rewrite Hguard.
  unfold cm_catch, cm_lift. simpl.
  set (tunnel := CommandInteractionMessagingTunnel cenv i) in *.
  destruct (processInvitation env tunnel member (Some invited)
              (tick (elapsed (member_fetch cenv (interaction_member i)))
                    (manager_state c)))
    as [[[]|err] s'] eqn:Hrun; simpl.
  - intros _ _. revert Hrun.
    unfold processInvitation, handleInvitation, catch, bind, ret, reject.
    unfold_manager. simpl.
    repeat case_match; simplify_eq/=; intros; simplify_eq/=; try congruence.
    all: split; [done|]; eexists; split_and!;
      [| |solve [repeat first
                   [ apply list_elem_of_here
                   | apply elem_of_app; right; apply list_elem_of_here
                   | apply elem_of_app; left ]]];
      reflexivity.
  - rewrite reply_error_run. simpl. intros _ Htrace.
    apply (f_equal length) in Htrace. rewrite !length_app in Htrace.
    simpl in Htrace. lia.
Qed.

(** X14: handleInteraction does nothing for a missing interaction, for
    one that is not a chat input command or not in a cached guild, whose
    channel is missing or not text-based, and, unless noTrigger is set, whose
    command name is not the configured command (in particular when no command
    is configured). *)
Theorem handleInteraction_ignores (interaction : option Interaction)
    (noTrigger : bool) (c : CommandState) :
  interaction = None
  ∨ (∃ i, interaction = Some i
       ∧ (interaction_isChatInputCommand i = false
          ∨ interaction_inCachedGuild i = false
          ∨ interaction_channel_isTextBased i = None
          ∨ interaction_channel_isTextBased i = Some false
          ∨ (noTrigger = false
             ∧ command (command_configuration cenv)
               ≠ Some (interaction_commandName i)))) →
  handleInteraction env cenv interaction noTrigger c = (Resolved tt, c).
Proof.
  unfold handleInteraction, cm_ret.
  intros [->|(i & -> & [H|[H|[H|[H|[-> H]]]]])]; [done|..].
  - by rewrite H.
  - by rewrite H, andb_false_r.
  - by rewrite H, !andb_false_r.
  - by rewrite H, !andb_false_r.
  - rewrite bool_decide_false by done. by rewrite !andb_false_r.
Qed.

(** X15: when the interaction passes the checks and fetching its member
    fails, handleInteraction rejects with that error: the failure is not
    caught, no reply is sent and the manager is not called. *)
Theorem handleInteraction_fetch_failure (i : Interaction) (noTrigger : bool)
    (err : Thrown) (c : CommandState) :
  interaction_isChatInputCommand i = true →
  interaction_inCachedGuild i = true →
  interaction_channel_isTextBased i = Some true →
  noTrigger = true
  ∨ command (command_configuration cenv) = Some (interaction_commandName i) →
  settled (member_fetch cenv (interaction_member i)) = inl err →
  handleInteraction env cenv (Some i) noTrigger c
  = (Rejected err,
     {| manager_state :=
          tick (elapsed (member_fetch cenv (interaction_member i)))
               (manager_state c);
        command_trace := command_trace c ++ [CFetch (interaction_member i)] |}).
Proof.
  intros Hchat Hguild Htext Htrig Hfetch.
  unfold handleInteraction, cm_bind, cm_await.
  rewrite Hchat, Hguild, Htext, Hfetch. simpl.
  destruct Htrig as [->|Hcmd]; [done|].
  rewrite bool_decide_true by done. by rewrite orb_true_r.
Qed.

End CommandExtras.

(** ** The game channels of the bot *)

Section BotExtras.
Context {GameChannel : Type}.
Context (GameChannel_channel : GameChannel -> TextChannel).
Context (new_GameChannel : nat -> TextChannel -> GameChannel).

Lemma lookup_channel_Some (parent : TextChannel) (l : list GameChannel)
    (found : GameChannel) :
  List.find (fun channel => bool_decide (GameChannel_channel channel = parent)) l = Some found →
  found ∈ l ∧ GameChannel_channel found = parent.
Proof.
  intros [Hin Hp]%find_some. split; [by apply list_elem_of_In|].
  by apply bool_decide_eq_true in Hp.
Qed.

Lemma lookup_channel_None (parent : TextChannel) (l : list GameChannel) :
  List.find (fun channel => bool_decide (GameChannel_channel channel = parent)) l = None →
  ∀ c, c ∈ l → GameChannel_channel c ≠ parent.
Proof.
  intros Hnone c Hc%list_elem_of_In.
  pose proof (find_none _ _ Hnone c Hc) as Hp. simpl in Hp.
  by apply bool_decide_eq_false in Hp.
Qed.

Lemma lookup_channel_snoc (parent : TextChannel) (l : list GameChannel)
    (x : GameChannel) :
  List.find (fun channel => bool_decide (GameChannel_channel channel = parent)) l = None → GameChannel_channel x = parent →
  List.find (fun channel => bool_decide (GameChannel_channel channel = parent)) (l ++ [x]) = Some x.
Proof.
  intros Hnone Hx. induction l as [|y l IH]; simpl in *.
  - by rewrite bool_decide_true.
  - destruct (bool_decide (GameChannel_channel y = parent)); [done|].
    by apply IH.
Qed.

(** X17: getorCreateGameChannel returns an element of the resulting
    cache; when a cached game channel has the parent, the cache and the
    allocator are unchanged and a cached channel of that parent is returned;
    when none has, exactly one new instance is appended and returned. *)
Theorem getorCreateGameChannel_cache (parent : TextChannel)
    (b : BotState GameChannel) :
  fst (getorCreateGameChannel GameChannel_channel new_GameChannel parent b)
  ∈ bot_channels
      (snd (getorCreateGameChannel GameChannel_channel new_GameChannel parent b))
  ∧ ((∃ c, c ∈ bot_channels b ∧ GameChannel_channel c = parent) →
     snd (getorCreateGameChannel GameChannel_channel new_GameChannel parent b)
     = b
     ∧ fst (getorCreateGameChannel GameChannel_channel new_GameChannel parent b)
       ∈ bot_channels b
     ∧ GameChannel_channel
         (fst (getorCreateGameChannel GameChannel_channel new_GameChannel
                 parent b)) = parent)
  ∧ ((∀ c, c ∈ bot_channels b → GameChannel_channel c ≠ parent) →
     getorCreateGameChannel GameChannel_channel new_GameChannel parent b
     = (new_GameChannel (bot_next_oid b) parent,
        {| bot_channels :=
             bot_channels b ++ [new_GameChannel (bot_next_oid b) parent];
           bot_next_oid := S (bot_next_oid b) |})).
Proof.
  unfold getorCreateGameChannel, find.
  destruct (List.find (fun channel => bool_decide (GameChannel_channel channel = parent)) (bot_channels b)) as [found|] eqn:Hfind.
  - destruct (lookup_channel_Some _ _ _ Hfind) as [Hin Hch].
    split_and!; [done|done|].
    intros Hnone. by destruct (Hnone found Hin).
  - simpl. split_and!.
    + apply elem_of_app. right. apply list_elem_of_here.
    + intros (c & Hc & Hch).
      by destruct (lookup_channel_None _ _ Hfind c Hc).
    + done.
Qed.

(** X18: provided the GameChannel constructor keeps its parent,
    getorCreateGameChannel returns a game channel of the parent, a second call
    for the same parent returns the same instance and changes nothing, and a
    cache with at most one game channel per parent stays so. *)
Theorem getorCreateGameChannel_idempotent (parent : TextChannel)
    (b : BotState GameChannel) :
  (∀ oid p, GameChannel_channel (new_GameChannel oid p) = p) →
  GameChannel_channel
    (fst (getorCreateGameChannel GameChannel_channel new_GameChannel parent b))
  = parent
  ∧ fst (getorCreateGameChannel GameChannel_channel new_GameChannel parent
           (snd (getorCreateGameChannel GameChannel_channel new_GameChannel
                   parent b)))
    = fst (getorCreateGameChannel GameChannel_channel new_GameChannel parent b)
  ∧ snd (getorCreateGameChannel GameChannel_channel new_GameChannel parent
           (snd (getorCreateGameChannel GameChannel_channel new_GameChannel
                   parent b)))
    = snd (getorCreateGameChannel GameChannel_channel new_GameChannel parent b)
  ∧ (NoDup (GameChannel_channel <$> bot_channels b) →
     NoDup (GameChannel_channel
            <$> bot_channels
                  (snd (getorCreateGameChannel GameChannel_channel
                          new_GameChannel parent b)))).
Proof.
  intros Hnew. unfold getorCreateGameChannel, find.
  destruct (List.find _ (bot_channels b)) as [found|] eqn:Hfind; simpl.
  - destruct (lookup_channel_Some _ _ _ Hfind) as [Hin Hch].
    rewrite Hfind. done.
  - rewrite (lookup_channel_snoc parent (bot_channels b)
               (new_GameChannel (bot_next_oid b) parent)) by done.
    split_and!; [done..|].
    intros Hnodup. rewrite fmap_app. apply NoDup_app.
    split_and!; [done| |apply NoDup_singleton].
    intros p (c & -> & Hc)%list_elem_of_fmap Hp.
    apply list_elem_of_singleton in Hp. simpl in Hp. rewrite Hnew in Hp.
    by destruct (lookup_channel_None _ _ Hfind c Hc).
Qed.

End BotExtras.

(** ** The further properties on the sample objects *)

Lemma sample_registry_wf :
  registry_wf (Sample.state [Sample.board_alice_bob; Sample.board_carol_ai]).
Proof.
  split.
  - intros g Hg. simpl in Hg. elem_cases Hg; simpl.
    + split; [lia|]. intros a Ha. elem_cases Ha.
    + split; [lia|]. intros a Ha. elem_cases Ha. simpl. lia.
  - simpl. apply NoDup_cons. split; [|apply NoDup_singleton].
    intros [?|?%elem_of_nil]%elem_of_cons; [discriminate|done].
Defined.

(** X1, witness: alice already plays when she invites bob. *)
Lemma conflict_rejected_before_construction_witness :
  fst (handleInvitation Sample.friendly Sample.tunnel_alice (Some Sample.bob)
         (Sample.state [Sample.board_alice_bob]))
  = Rejected (ThrownString "game.in-progress").
Proof.
  refine (proj2 (proj1 (conflict_rejected_before_construction Sample.friendly
            Sample.tunnel_alice Sample.bob None
            (Sample.state [Sample.board_alice_bob]) _) _)).
  - reflexivity.
  - reflexivity.
Defined.

(** X5, witness: the invariant after alice's game against the AI. *)
Lemma registry_wf_preserved_witness :
  registry_wf
    (snd (createGame Sample.friendly Sample.tunnel_alice None
            (Sample.state [Sample.board_alice_bob; Sample.board_carol_ai]))).
Proof.
  exact (proj1 (proj2 (registry_wf_preserved Sample.friendly
           Sample.tunnel_alice Sample.bob None Sample.board_alice_bob Undefined
           (Sample.state [Sample.board_alice_bob; Sample.board_carol_ai])
           sample_registry_wf))).
Defined.

(** X6, witness: alice's game against the AI is created and then expires. *)
Lemma createGame_endGame_round_trip_witness :
  gameboards
    (snd (endGame Sample.friendly
            {| board_oid := 11;
               board_tunnel := Sample.tunnel_alice;
               entities := [EMember Sample.alice;
                            EAI {| ai_oid := 10; ai_difficulty := 3 |}];
               board_configuration := Sample.config |}
            Undefined
            (snd (createGame Sample.friendly Sample.tunnel_alice None
                    (Sample.state [Sample.board_carol_ai])))))
  = [Sample.board_carol_ai].
Proof.
  refine (proj2 (createGame_endGame_round_trip Sample.friendly
            Sample.tunnel_alice None _ Undefined
            (Sample.state [Sample.board_carol_ai]) _ _ _)).
  - intros g Hg. simpl in Hg. elem_cases Hg. simpl.
    split; [lia|]. intros a Ha. elem_cases Ha. simpl. lia.
  - reflexivity.
  - constructor.
Defined.

(** X7, witness: the board of alice and bob is ended twice; carol's board
    is lost. *)
Lemma endGame_twice_witness :
  gameboards
    (snd (endGame Sample.friendly Sample.board_alice_bob Undefined
            (snd (endGame Sample.friendly Sample.board_alice_bob Null
                    (Sample.state
                       [Sample.board_alice_bob; Sample.board_carol_ai])))))
  = [].
Proof.
  refine (proj2 (proj2 (endGame_twice Sample.friendly Sample.board_alice_bob
            Null Undefined [] [Sample.board_carol_ai]
            (Sample.state [Sample.board_alice_bob; Sample.board_carol_ai])
            _ _ _ _))).
  - reflexivity.
  - simpl. apply NoDup_cons. split; [|apply NoDup_singleton].
    intros [?|?%elem_of_nil]%elem_of_cons; [discriminate|done].
  - repeat constructor.
  - constructor.
Defined.

(** X8, witness: alice invites a bot. *)
Lemma processInvitation_rejects_with_key_witness :
  ∃ key, ThrownString "duel.no-bot" = ThrownString key
    ∧ (key = "duel.no-bot" ∨ key = "duel.unknown-user"
       ∨ ∃ cause,
           fst (requestDuel Sample.friendly Sample.tunnel_alice Sample.robot
                  (Sample.state [])) = Rejected cause
           ∧ key = default "game.in-progress" (message_of cause)).
Proof.
  exact (processInvitation_rejects_with_key Sample.friendly
           Sample.tunnel_alice Sample.alice (Some Sample.robot)
           (Sample.state []) (ThrownString "duel.no-bot") eq_refl).
Defined.

(** X10, witness: a message of a bot is ignored. *)
Lemma handleMessage_ignores_witness :
  handleMessage Sample.friendly SampleCommand.online
    SampleCommand.message_of_robot true
    (SampleCommand.started (Sample.state []))
  = (Resolved tt, SampleCommand.started (Sample.state [])).
Proof.
  apply (handleMessage_ignores Sample.friendly SampleCommand.online
           SampleCommand.message_of_robot true
           (SampleCommand.started (Sample.state []))).
  right. left. reflexivity.
Defined.

(** X11, witness: alice mentions a bot and the error reply cannot be sent. *)
Lemma handlers_reject_only_when_io_fails_witness :
  fst (handleMessage Sample.friendly SampleCommand.offline
         (SampleCommand.message_of_alice "!ttt" (Some [Sample.robot]))
         false (SampleCommand.started (Sample.state [])))
  = Rejected (ThrownError (Some "Missing Permissions")).
Proof.
  destruct (proj1 (handlers_reject_only_when_io_fails Sample.friendly
              SampleCommand.offline (SampleCommand.started (Sample.state [])))
              (SampleCommand.message_of_alice "!ttt" (Some [Sample.robot]))
              false) as [[Hnone _]|(content & _ & Hout)].
  - exfalso. apply (f_equal length) in Hnone. vm_compute in Hnone.
    discriminate Hnone.
  - rewrite Hout. reflexivity.
Defined.

(** X12, witness: alice mentions a bot. *)
Lemma handleMessage_answers_invalid_invitee_witness :
  command_trace
    (snd (handleMessage Sample.friendly SampleCommand.online
            (SampleCommand.message_of_alice "!ttt @robot" (Some [Sample.robot]))
            false (SampleCommand.started (Sample.state []))))
  = [CReplyError
       (SampleCommand.tunnel_of_message
          (SampleCommand.message_of_alice "!ttt @robot" (Some [Sample.robot])))
       "duel.no-bot" true].
Proof.
  destruct (handleMessage_answers_invalid_invitee Sample.friendly
              SampleCommand.online
              (SampleCommand.message_of_alice "!ttt @robot"
                 (Some [Sample.robot]))
              false Sample.alice Sample.robot []
              (SampleCommand.started (Sample.state [])))
    as (key & -> & _ & Htrace & _).
  - reflexivity.
  - reflexivity.
  - reflexivity.
  - right. exists "!ttt". split_and!; [reflexivity|discriminate|reflexivity].
  - reflexivity.
  - left. reflexivity.
  - exact Htrace.
Defined.

(** X13, witness: alice sends the text command and mentions nobody. *)
Lemma handleMessage_starts_game_against_AI_witness :
  ∃ g a,
    gameboards
      (manager_state
         (snd (handleMessage Sample.friendly SampleCommand.online
                 (SampleCommand.message_of_alice "!ttt" None) false
                 (SampleCommand.started (Sample.state [])))))
    = [g]
    ∧ entities g = [EMember Sample.alice; EAI a]
    ∧ ai_oid a = 10%nat.
Proof.
  apply (handleMessage_starts_game_against_AI Sample.friendly
           SampleCommand.online (SampleCommand.message_of_alice "!ttt" None)
           false Sample.alice (SampleCommand.started (Sample.state []))).
  - reflexivity.
  - reflexivity.
  - reflexivity.
  - right. exists "!ttt". split_and!; [reflexivity|discriminate|reflexivity].
  - left. reflexivity.
  - reflexivity.
  - reflexivity.
  - reflexivity.
Defined.

(** X14, witness: no interaction at all. *)
Lemma handleInteraction_ignores_witness :
  handleInteraction Sample.friendly SampleCommand.online None true
    (SampleCommand.started (Sample.state []))
  = (Resolved tt, SampleCommand.started (Sample.state [])).
Proof.
  apply (handleInteraction_ignores Sample.friendly SampleCommand.online None
           true (SampleCommand.started (Sample.state []))).
  left. reflexivity.
Defined.

(** X15, witness: alice's member cannot be fetched. *)
Lemma handleInteraction_fetch_failure_witness :
  fst (handleInteraction Sample.friendly SampleCommand.offline
         (Some (SampleCommand.interaction_of_alice (Some Sample.bob))) false
         (SampleCommand.started (Sample.state [])))
  = Rejected (ThrownError (Some "Unknown Member")).
Proof.
  rewrite (handleInteraction_fetch_failure Sample.friendly
             SampleCommand.offline
             (SampleCommand.interaction_of_alice (Some Sample.bob)) false
             (ThrownError (Some "Unknown Member"))
             (SampleCommand.started (Sample.state []))).
  - reflexivity.
  - reflexivity.
  - reflexivity.
  - reflexivity.
  - right. reflexivity.
  - reflexivity.
Defined.

(** X16, witness: alice challenges bob with the slash command. *)
Lemma handleInteraction_requests_duel_witness :
  ∃ d, duel_invited d = Sample.bob
    ∧ duel_tunnel d
      = SampleCommand.tunnel_of_interaction
          (SampleCommand.interaction_of_alice (Some Sample.bob))
    ∧ SNewDuelRequest d
      ∈ trace (manager_state
                 (snd (handleInteraction Sample.friendly SampleCommand.online
                         (Some (SampleCommand.interaction_of_alice
                                  (Some Sample.bob)))
                         false (SampleCommand.started (Sample.state []))))).
Proof.
  refine (proj2 (handleInteraction_requests_duel Sample.friendly
            SampleCommand.online
            (SampleCommand.interaction_of_alice (Some Sample.bob)) false
            Sample.alice Sample.bob (SampleCommand.started (Sample.state []))
            _ _ _ _ _ _ _ _ _)).
  - reflexivity.
  - reflexivity.
  - reflexivity.
  - right. reflexivity.
  - reflexivity.
  - reflexivity.
  - reflexivity.
  - reflexivity.
  - reflexivity.
Defined.

(** X17, witness: the lobby is cached, the arena is not. *)
Lemma getorCreateGameChannel_cache_witness :
  snd (getorCreateGameChannel snd pair Sample.lobby SampleCommand.channels)
  = SampleCommand.channels
  ∧ getorCreateGameChannel snd pair Sample.arena SampleCommand.channels
    = ((2%nat, Sample.arena),
       {| bot_channels := [(1%nat, Sample.lobby); (2%nat, Sample.arena)];
          bot_next_oid := 3 |}).
Proof.
  destruct (getorCreateGameChannel_cache snd pair Sample.lobby
              SampleCommand.channels) as (_ & Hhit & _).
  destruct (getorCreateGameChannel_cache snd pair Sample.arena
              SampleCommand.channels) as (_ & _ & Hmiss).
  split.
  - apply Hhit. exists (1%nat, Sample.lobby). split; [|reflexivity].
    simpl. left.
  - apply Hmiss. intros c Hc. simpl in Hc. elem_cases Hc. discriminate.
Defined.

(** X18, witness: asking twice for the arena creates one game channel. *)
Lemma getorCreateGameChannel_idempotent_witness :
  fst (getorCreateGameChannel snd pair Sample.arena
         (snd (getorCreateGameChannel snd pair Sample.arena
                 SampleCommand.channels)))
  = (2%nat, Sample.arena)
  ∧ bot_channels
      (snd (getorCreateGameChannel snd pair Sample.arena
              (snd (getorCreateGameChannel snd pair Sample.arena
                      SampleCommand.channels))))
    = [(1%nat, Sample.lobby); (2%nat, Sample.arena)].
Proof.
  destruct (getorCreateGameChannel_idempotent snd pair Sample.arena
              SampleCommand.channels) as (_ & Hfst & Hsnd & _).
  - reflexivity.
  - rewrite Hfst, Hsnd. split; reflexivity.
Defined.
